(** * Orbit Engine observer client: a shallow embedding of the React client
    (views/OrbitEngine.jsx, components/ControlPanel, components/TrajectoryPlanner,
    hooks/useWebSocket) and the data contracts it exchanges with the server.

    JavaScript values are a small tagged union; objects are association
    lists in insertion order; numbers are rationals extended with NaN and
    the two infinities; exceptions are an error monad; the WebSocket runtime
    is a step relation over an explicit client state. *)

From Stdlib Require Import ZArith QArith Qround List String Ascii Bool Lia Lqa.
Import ListNotations.
Open Scope string_scope.
Open Scope Z_scope.
Set Warnings "-register-all".

(* ===================================================================== *)
(** ** JavaScript values *)
(* ===================================================================== *)

Module JS.

(** A JavaScript Number: a finite value (every finite double is a rational),
    NaN, or an infinity. *)
Inductive number : Type :=
| NaN
| PosInf
| NegInf
| Fin (q : Q).

Inductive value : Type :=
| VUndefined
| VNull
| VBool (b : bool)
| VNum (n : number)
| VStr (s : string)
| VArr (l : list value)
| VObj (fields : list (string * value)).

(** The JSON data model: what JSON.stringify can produce (no undefined, no
    NaN). *)
Inductive json : Type :=
| JNull
| JBool (b : bool)
| JNum (q : Q)
| JStr (s : string)
| JArr (l : list json)
| JObj (fields : list (string * json)).

Inductive exn : Type :=
| TypeError
| RangeError
| SyntaxError
| InvalidStateError.

Inductive result (A : Type) : Type :=
| Ok (a : A)
| Throw (e : exn).

Arguments Ok {A} a.
Arguments Throw {A} e.

Definition bind {A B : Type} (r : result A) (k : A -> result B) : result B :=
  match r with
  | Ok a => k a
  | Throw e => Throw e
  end.

Notation "x <- r ;; k" := (bind r (fun x => k))
  (at level 61, r at next level, right associativity).

Definition num (z : Z) : value := VNum (Fin (inject_Z z)).

(** Own-property lookup in an object literal. *)
Fixpoint lookup (k : string) (fields : list (string * value)) : option value :=
  match fields with
  | [] => None
  | (k', v) :: rest => if String.eqb k k' then Some v else lookup k rest
  end.

(** [o.k] : reading a property of undefined or null throws a TypeError, a
    missing property reads as undefined.  Arrays and primitives have no
    named own property among the ones the client reads. *)
Definition get (o : value) (k : string) : result value :=
  match o with
  | VUndefined | VNull => Throw TypeError
  | VObj fields =>
      match lookup k fields with
      | Some v => Ok v
      | None => Ok VUndefined
      end
  | _ => Ok VUndefined
  end.

(** Decimal digits of a natural number, most significant first. *)
Fixpoint nat_digits (fuel n : nat) (acc : string) : string :=
  match fuel with
  | O => acc
  | S f =>
      let acc' := String (ascii_of_nat (48 + Nat.modulo n 10)) acc in
      if Nat.ltb n 10 then acc' else nat_digits f (Nat.div n 10) acc'
  end.

(** The property name of the array index [i]: its decimal text. *)
Definition index_key (i : nat) : string := nat_digits (S i) i "".

(** [a[i]] for an array index [i]: an element of an array, a character of
    a string, undefined past the end; on a plain object, the property
    named by the index. *)
Definition idx (a : value) (i : nat) : result value :=
  match a with
  | VUndefined | VNull => Throw TypeError
  | VArr l => Ok (nth i l VUndefined)
  | VStr s =>
      match String.get i s with
      | Some c => Ok (VStr (String c EmptyString))
      | None => Ok VUndefined
      end
  | VObj fields =>
      match lookup (index_key i) fields with
      | Some v => Ok v
      | None => Ok VUndefined
      end
  | _ => Ok VUndefined
  end.

(** [Array.prototype.length] of a value used as a list. *)
Definition elements (a : value) : list value :=
  match a with
  | VArr l => l
  | _ => []
  end.

(** ToBoolean. *)
Definition truthy (v : value) : bool :=
  match v with
  | VUndefined | VNull => false
  | VBool b => b
  | VNum NaN => false
  | VNum (Fin q) => negb (Qeq_bool q 0)
  | VNum _ => true
  | VStr s => negb (String.eqb s "")
  | VArr _ | VObj _ => true
  end.

(** [a || b] and [a && b]. *)
Definition js_or (a b : value) : value := if truthy a then a else b.
Definition js_and (a b : value) : value := if truthy a then b else a.


(** [v == null]: true exactly for null and undefined. *)
Definition loose_eq_null (v : value) : bool :=
  match v with
  | VUndefined | VNull => true
  | _ => false
  end.

(** [v === 'lit'] against a string literal. *)
Definition strict_eq_str (v : value) (lit : string) : bool :=
  match v with
  | VStr s => String.eqb s lit
  | _ => false
  end.

(** Writing a property: replace in place when the key exists, append
    otherwise (insertion order is kept, as in an object literal). *)
Fixpoint obj_set (k : string) (v : value) (fields : list (string * value))
  : list (string * value) :=
  match fields with
  | [] => [(k, v)]
  | (k', v') :: rest =>
      if String.eqb k k' then (k, v) :: rest else (k', v') :: obj_set k v rest
  end.

(** The index properties of an array, from index [i] on. *)
Fixpoint indexed (i : nat) (l : list value) : list (string * value) :=
  match l with
  | [] => []
  | x :: rest => (index_key i, x) :: indexed (S i) rest
  end.

(** The index properties of a string, from index [i] on. *)
Fixpoint characters (i : nat) (s : string) : list (string * value) :=
  match s with
  | EmptyString => []
  | String c rest => (index_key i, VStr (String c EmptyString)) :: characters (S i) rest
  end.

(** Own enumerable properties copied by a spread [...v]: those of an object,
    the elements of an array and the characters of a string under their
    indices; null, undefined, numbers and booleans contribute nothing. *)
Definition own_fields (v : value) : list (string * value) :=
  match v with
  | VObj fields => fields
  | VArr l => indexed 0 l
  | VStr s => characters 0 s
  | _ => []
  end.

(** [{...a, ...b}]. *)
Definition spread2 (a b : value) : value :=
  VObj (fold_left (fun acc kv => obj_set (fst kv) (snd kv) acc)
          (own_fields b)
          (fold_left (fun acc kv => obj_set (fst kv) (snd kv) acc)
             (own_fields a) [])).

(** JSON.stringify, up to the rendering of the text: undefined at the top
    level gives undefined ([None]); a property whose value is undefined is
    left out; undefined inside an array and non-finite numbers become null. *)
Fixpoint JSON_stringify (v : value) : option json :=
  match v with
  | VUndefined => None
  | VNull => Some JNull
  | VBool b => Some (JBool b)
  | VNum (Fin q) => Some (JNum q)
  | VNum _ => Some JNull
  | VStr s => Some (JStr s)
  | VArr l =>
      Some (JArr (map (fun x => match JSON_stringify x with
                                | Some j => j
                                | None => JNull
                                end) l))
  | VObj fields =>
      Some (JObj ((fix props (fs : list (string * value)) : list (string * json) :=
                     match fs with
                     | [] => []
                     | (k, x) :: rest =>
                         match JSON_stringify x with
                         | Some j => (k, j) :: props rest
                         | None => props rest
                         end
                     end) fields))
  end.

(** Field names of a JSON object, in order. *)
Definition json_keys (j : json) : list string :=
  match j with
  | JObj fields => map fst fields
  | _ => []
  end.

Fixpoint json_lookup (k : string) (fields : list (string * json)) : option json :=
  match fields with
  | [] => None
  | (k', v) :: rest => if String.eqb k k' then Some v else json_lookup k rest
  end.

Definition json_get (j : json) (k : string) : option json :=
  match j with
  | JObj fields => json_lookup k fields
  | _ => None
  end.

(** [o.k] on an object literal with fields [fields]. *)
Definition field (k : string) (fields : list (string * value)) : value :=
  match lookup k fields with
  | Some v => v
  | None => VUndefined
  end.

End JS.

(* ===================================================================== *)
(** ** The built-in Date object (ECMAScript time values) *)
(* ===================================================================== *)

Module DateModel.
Import JS.

Definition msPerSecond : Z := 1000.
Definition msPerMinute : Z := 60000.
Definition msPerHour : Z := 3600000.
Definition msPerDay : Z := 86400000.

(** A time value: milliseconds since 1970-01-01T00:00:00Z, or NaN ([None]). *)
Definition timevalue : Type := option Z.

Definition Day (t : Z) : Z := t / msPerDay.
Definition HourFromTime (t : Z) : Z := (t / msPerHour) mod 24.
Definition MinFromTime (t : Z) : Z := (t / msPerMinute) mod 60.
Definition SecFromTime (t : Z) : Z := (t / msPerSecond) mod 60.
Definition msFromTime (t : Z) : Z := t mod msPerSecond.

(** Day number of the proleptic Gregorian date [y]-[m]-[d] ([m] in 1..12). *)
Definition days_from_civil (y m d : Z) : Z :=
  let y' := if m <=? 2 then y - 1 else y in
  let era := y' / 400 in
  let yoe := y' - era * 400 in
  let mp := if m <=? 2 then m + 9 else m - 3 in
  let doy := (153 * mp + 2) / 5 + d - 1 in
  let doe := yoe * 365 + yoe / 4 - yoe / 100 + doy in
  era * 146097 + doe - 719468.

(** Year, month (1..12) and day of month of a day number. *)
Definition civil_from_days (z : Z) : Z * Z * Z :=
  let z' := z + 719468 in
  let era := z' / 146097 in
  let doe := z' - era * 146097 in
  let yoe := (doe - doe / 1460 + doe / 36524 - doe / 146096) / 365 in
  let doy := doe - (365 * yoe + yoe / 4 - yoe / 100) in
  let mp := (5 * doy + 2) / 153 in
  let d := doy - (153 * mp + 2) / 5 + 1 in
  let m := if mp <? 10 then mp + 3 else mp - 9 in
  let y := yoe + era * 400 in
  (if m <=? 2 then y + 1 else y, m, d).

(** ToIntegerOrInfinity restricted to finite arguments: truncation
    towards zero. *)
Definition trunc (q : Q) : Z :=
  if Qle_bool 0 q then Qfloor q else Qceiling q.

(** Number addition. *)
Definition num_add (a b : number) : number :=
  match a, b with
  | NaN, _ | _, NaN => NaN
  | PosInf, NegInf | NegInf, PosInf => NaN
  | PosInf, _ | _, PosInf => PosInf
  | NegInf, _ | _, NegInf => NegInf
  | Fin x, Fin y => Fin (x + y)
  end.

(** MakeTime(hour, min, sec, ms) with integral hour, min and ms. *)
Definition MakeTime (hour min : Z) (sec : number) (ms : Z) : timevalue :=
  match sec with
  | Fin s => Some (hour * msPerHour + min * msPerMinute + trunc s * msPerSecond + ms)
  | _ => None
  end.

Definition MakeDate (day : Z) (time : timevalue) : timevalue :=
  match time with
  | Some tm => Some (day * msPerDay + tm)
  | None => None
  end.

(** TimeClip: a time value beyond 8.64e15 ms of the Unix epoch is NaN. *)
Definition TimeClip (t : timevalue) : timevalue :=
  match t with
  | Some v => if Z.abs v <=? 8640000000000000 then Some v else None
  | None => None
  end.

(** Date.UTC(year, month, date) for a month index in 0..11. *)
Definition Date_UTC (year month date : Z) : timevalue :=
  TimeClip (MakeDate (days_from_civil year (month + 1) date) (Some 0)).

Section HostTimeZone.

(** The host's LocalTimeZoneAdjustment(t, isUTC), in milliseconds. *)
Variable LocalTZA : Z -> bool -> Z.

Definition LocalTime (t : Z) : Z := t + LocalTZA t true.
Definition UTC (t : Z) : Z := t - LocalTZA t false.

(** Date.prototype.getSeconds. *)
Definition getSeconds (date : timevalue) : number :=
  match date with
  | Some t => Fin (inject_Z (SecFromTime (LocalTime t)))
  | None => NaN
  end.

(** Date.prototype.setSeconds(sec): the seconds field of the local time
    is replaced, the overflow carries into the other fields. *)
Definition setSeconds (date : timevalue) (sec : number) : timevalue :=
  match date with
  | None => None
  | Some tv =>
      let t := LocalTime tv in
      match MakeDate (Day t)
              (MakeTime (HourFromTime t) (MinFromTime t) sec (msFromTime t)) with
      | Some d => TimeClip (Some (UTC d))
      | None => None
      end
  end.

End HostTimeZone.

Definition digit (z : Z) : ascii := ascii_of_nat (48 + Z.to_nat (z mod 10)).

(** [w] decimal digits of [z], zero padded. *)
Fixpoint pad (w : nat) (z : Z) : string :=
  match w with
  | O => ""
  | S w' => pad w' (z / 10) ++ String (digit z) ""
  end.

(** Date.prototype.toISOString: YYYY-MM-DDTHH:mm:ss.sssZ, with a signed
    six-digit year outside 0..9999; RangeError on an invalid date. *)
Definition toISOString (date : timevalue) : result string :=
  match date with
  | None => Throw RangeError
  | Some t =>
      let '(y, m, d) := civil_from_days (Day t) in
      let year :=
        if (0 <=? y) && (y <=? 9999) then pad 4 y
        else if y <? 0 then "-" ++ pad 6 (- y) else "+" ++ pad 6 y in
      Ok (year ++ "-" ++ pad 2 m ++ "-" ++ pad 2 d ++ "T"
          ++ pad 2 (HourFromTime t) ++ ":" ++ pad 2 (MinFromTime t) ++ ":"
          ++ pad 2 (SecFromTime t) ++ "." ++ pad 3 (msFromTime t) ++ "Z")
  end.

(** [s.replace(c, d)] for one-character patterns: the first occurrence. *)
Fixpoint replace_first (c d : ascii) (s : string) : string :=
  match s with
  | EmptyString => EmptyString
  | String a rest =>
      if Ascii.eqb a c then String d rest else String a (replace_first c d rest)
  end.

(** [s.slice(0, -k)]. *)
Definition slice_to_end (k : nat) (s : string) : string :=
  substring 0 (String.length s - k) s.

(** 2024-01-01T00:00:00Z as a time value. *)
Definition EPOCH_MS : Z := 1704067200000.

(** A host in UTC. *)
Definition utc_host (t : Z) (isUTC : bool) : Z := 0.

(** A host on US Eastern time in 2024: UTC-5, and UTC-4 from
    2024-03-10T07:00Z to 2024-11-03T06:00Z.  A local time (isUTC false) in
    the hour skipped on March 10 (02:00 to 03:00) or repeated on November 3
    (01:00 to 02:00) takes the offset in force before the transition. *)
Definition eastern_host (t : Z) (isUTC : bool) : Z :=
  if isUTC
  then if (1710054000000 <=? t) && (t <? 1730613600000)
       then -4 * msPerHour else -5 * msPerHour
  else if (1710039600000 <=? t) && (t <? 1730599200000)
       then -4 * msPerHour else -5 * msPerHour.

End DateModel.

(* ===================================================================== *)
(** ** Built-in string and number conversions *)
(* ===================================================================== *)

Module Conv.
Import JS DateModel.

(** Decimal digits of a non-negative integer, most significant first. *)
Fixpoint digits_of (fuel : nat) (z : Z) (acc : string) : string :=
  match fuel with
  | O => acc
  | S f =>
      let acc' := String (digit z) acc in
      if z <? 10 then acc' else digits_of f (z / 10) acc'
  end.

(** ToString of an integral Number below 1e21 in magnitude, as React
    writes it into a DOM attribute. *)
Definition Number_toString (z : Z) : string :=
  if z <? 0 then "-" ++ digits_of 22 (- z) "" else digits_of 22 z "".

Definition is_digit (c : ascii) : bool :=
  let n := nat_of_ascii c in (48 <=? n)%nat && (n <=? 57)%nat.

Definition is_space (c : ascii) : bool :=
  let n := nat_of_ascii c in
  (n =? 32)%nat || ((9 <=? n)%nat && (n <=? 13)%nat).

Fixpoint skip_ws (s : string) : string :=
  match s with
  | String c rest => if is_space c then skip_ws rest else s
  | EmptyString => s
  end.

(** Reads a run of decimal digits: its value, its length, and the rest. *)
Fixpoint read_digits (s : string) (acc : Z) (n : nat) : Z * nat * string :=
  match s with
  | String c rest =>
      if is_digit c
      then read_digits rest (acc * 10 + Z.of_nat (nat_of_ascii c - 48)) (S n)
      else (acc, n, s)
  | EmptyString => (acc, n, s)
  end.

(** Reads an optional sign: [true] when negative. *)
Definition read_sign (s : string) : bool * string :=
  match s with
  | String "-"%char rest => (true, rest)
  | String "+"%char rest => (false, rest)
  | _ => (false, s)
  end.

(** The exponent part [e[+-]digits], when complete; 0 otherwise. *)
Definition read_exponent (s : string) : Z :=
  match s with
  | String c rest =>
      if Ascii.eqb c "e"%char || Ascii.eqb c "E"%char
      then let '(neg, r) := read_sign rest in
           let '(e, n, _) := read_digits r 0 0 in
           match n with
           | O => 0
           | _ => if neg then - e else e
           end
      else 0
  | EmptyString => 0
  end.

(** parseFloat: leading white space is skipped and the longest prefix that
    is a decimal literal is read; NaN when there is none.  The value is the
    exact rational, not its nearest double. *)
Definition parseFloat (s : string) : number :=
  let '(neg, s0) := read_sign (skip_ws s) in
  if prefix "Infinity" s0 then (if neg then NegInf else PosInf)
  else
    let '(ip, ni, s1) := read_digits s0 0 0 in
    let '(fp, nf, s2) :=
      match s1 with
      | String "."%char r => read_digits r 0 0
      | _ => (0, O, s1)
      end in
    match (ni + nf)%nat with
    | O => NaN
    | _ =>
        let e := read_exponent s2 in
        let m := ip * 10 ^ Z.of_nat nf + fp in
        let m' := if neg then - m else m in
        if 0 <=? e
        then Fin (Qmake (m' * 10 ^ e) (Z.to_pos (10 ^ Z.of_nat nf)))
        else Fin (Qmake m' (Z.to_pos (10 ^ (Z.of_nat nf - e))))
    end.

Definition lower (c : ascii) : ascii :=
  let n := nat_of_ascii c in
  if (65 <=? n)%nat && (n <=? 90)%nat then ascii_of_nat (n + 32) else c.

(** String.prototype.toLowerCase on ASCII text: A to Z become a to z and
    every other character is kept.  The built-in also maps capitals outside
    ASCII, which this function leaves as they are: the two agree on the
    strings made of ASCII characters only. *)
Fixpoint toLowerCase (s : string) : string :=
  match s with
  | EmptyString => EmptyString
  | String c rest => String (lower c) (toLowerCase rest)
  end.

(** [s.split(c)[0]]: the text before the first [c]. *)
Fixpoint before_first (c : ascii) (s : string) : string :=
  match s with
  | EmptyString => EmptyString
  | String a rest => if Ascii.eqb a c then EmptyString else String a (before_first c rest)
  end.

End Conv.

(* ===================================================================== *)
(** ** components/ControlPanel: TimeControls and SimulationInfo *)
(* ===================================================================== *)

Module ControlPanel.
Import JS DateModel Conv.

Record speedOption : Type := mkOption { value : Z; label : string }.

(** TimeControls.speedOptions *)
Definition speedOptions : list speedOption :=
  [ mkOption 1 "1x";
    mkOption 10 "10x";
    mkOption 100 "100x";
    mkOption 1000 "1,000x";
    mkOption 10000 "10,000x";
    mkOption 100000 "100,000x";
    mkOption 1000000 "1M x" ].

(** The [value] attribute of the <option> rendered for a speed option. *)
Definition option_attr (o : speedOption) : string := Number_toString (value o).

(** The select's onChange handler on the change event of option [o]:
    the argument handed to onSpeedChange, [parseFloat(e.target.value)]. *)
Definition select_onChange (o : speedOption) : number := parseFloat (option_attr o).

(** SimulationInfo.formatSimTime, on a host with time zone adjustment
    [LocalTZA]. *)
Definition formatSimTime (LocalTZA : Z -> bool -> Z) (seconds : number)
  : result string :=
  let date := Date_UTC 2024 0 1 in
  let date := setSeconds LocalTZA date (num_add (getSeconds LocalTZA date) seconds) in
  s <- toISOString date ;;
  Ok (slice_to_end 5 (replace_first "T" " " s)).

(** The Date's time value after [date.setSeconds(...)] in formatSimTime:
    the instant that is displayed. *)
Definition displayed_instant (LocalTZA : Z -> bool -> Z) (seconds : number)
  : timevalue :=
  let date := Date_UTC 2024 0 1 in
  setSeconds LocalTZA date (num_add (getSeconds LocalTZA date) seconds).

(** The text SimulationInfo shows for the instant [t]:
    [toISOString().replace('T', ' ').slice(0, -5)]. *)
Definition display_of_instant (t : timevalue) : result string :=
  s <- toISOString t ;;
  Ok (slice_to_end 5 (replace_first "T" " " s)).

(** The argument SimulationInfo passes to formatSimTime: [timestamp || 0]. *)
Definition simTime_arg (timestamp : JS.value) : JS.value := js_or timestamp (num 0).

End ControlPanel.

(* ===================================================================== *)
(** ** The browser's WebSocket objects *)
(* ===================================================================== *)

Module Socket.
Import JS.

(** WebSocket.CONNECTING, OPEN, CLOSING, CLOSED *)
Definition CONNECTING : Z := 0.
Definition OPEN : Z := 1.
Definition CLOSING : Z := 2.
Definition CLOSED : Z := 3.

(** A data frame handed to [send]: the JSON document, or the text
    [undefined] ([None]) when JSON.stringify returned undefined. *)
Definition frame : Type := option json.

Record WebSocket : Type := mkSocket {
  readyState : Z;
  sent : list frame      (* frames accepted for transmission, oldest first *)
}.

(** [ws.send(data)]: InvalidStateError while connecting; transmitted when
    open; dropped by the socket once closing or closed. *)
Definition send (ws : WebSocket) (data : frame) : result WebSocket :=
  if readyState ws =? CONNECTING then Throw InvalidStateError
  else if readyState ws =? OPEN
       then Ok (mkSocket (readyState ws) (sent ws ++ [data]))
       else Ok ws.

(** [ws.close()] *)
Definition close (ws : WebSocket) : WebSocket :=
  if (readyState ws =? CLOSING) || (readyState ws =? CLOSED) then ws
  else mkSocket CLOSING (sent ws).

(** Replaces the socket stored at identity [id]. *)
Fixpoint store (id : nat) (ws : WebSocket) (heap : list WebSocket) : list WebSocket :=
  match heap, id with
  | [], _ => []
  | _ :: rest, O => ws :: rest
  | w :: rest, S id' => w :: store id' ws rest
  end.

End Socket.

(* ===================================================================== *)
(** ** views/OrbitEngine.jsx *)
(* ===================================================================== *)

Module OrbitEngine.
Import JS Conv Socket.

(** Callbacks handed to setTimeout. *)
Inductive callback : Type :=
| ConnectWebSocket.

(** An HTTP request issued with fetch: URL and JSON body. *)
Definition request : Type := (string * frame)%type.

Record Client : Type := mkClient {
  simulationState : value;
  selectedBody : value;
  bodyInfo : value;
  showPlanner : bool;
  isConnected : bool;
  wsRef : option nat;               (* wsRef.current: identity of a socket *)
  sockets : list WebSocket;         (* every socket created so far *)
  timers : list (Z * callback);     (* pending setTimeout calls: delay, callback *)
  fetches : list request            (* REST requests issued so far *)
}.

(** useState initial values; [now] is [new Date().toISOString()]. *)
Definition initialState (now : string) : value :=
  VObj [ ("timestamp", num 0);
         ("real_timestamp", VStr now);
         ("bodies", VObj []);
         ("missions", VArr []);
         ("time_scale", num 1);
         ("is_playing", VBool false) ].

Definition initial (now : string) : Client :=
  mkClient (initialState now) VNull VNull false false None [] [] [].

Definition setSimulationState (c : Client) (v : value) : Client :=
  mkClient v (selectedBody c) (bodyInfo c) (showPlanner c) (isConnected c)
    (wsRef c) (sockets c) (timers c) (fetches c).

Definition setSelectedBody (c : Client) (v : value) : Client :=
  mkClient (simulationState c) v (bodyInfo c) (showPlanner c) (isConnected c)
    (wsRef c) (sockets c) (timers c) (fetches c).

Definition setBodyInfo (c : Client) (v : value) : Client :=
  mkClient (simulationState c) (selectedBody c) v (showPlanner c) (isConnected c)
    (wsRef c) (sockets c) (timers c) (fetches c).

Definition setIsConnected (c : Client) (b : bool) : Client :=
  mkClient (simulationState c) (selectedBody c) (bodyInfo c) (showPlanner c) b
    (wsRef c) (sockets c) (timers c) (fetches c).

Definition setSockets (c : Client) (ref : option nat) (heap : list WebSocket) : Client :=
  mkClient (simulationState c) (selectedBody c) (bodyInfo c) (showPlanner c)
    (isConnected c) ref heap (timers c) (fetches c).

Definition setTimers (c : Client) (ts : list (Z * callback)) : Client :=
  mkClient (simulationState c) (selectedBody c) (bodyInfo c) (showPlanner c)
    (isConnected c) (wsRef c) (sockets c) ts (fetches c).

(** [setTimeout(cb, delay)] *)
Definition setTimeout (c : Client) (cb : callback) (delay : Z) : Client :=
  setTimers c (timers c ++ [(delay, cb)]).

(** [fetch(url, {method: 'POST', body})], fire and forget. *)
Definition fetch (c : Client) (url : string) (body : frame) : Client :=
  mkClient (simulationState c) (selectedBody c) (bodyInfo c) (showPlanner c)
    (isConnected c) (wsRef c) (sockets c) (timers c) (fetches c ++ [(url, body)]).

(** connectWebSocket: a new socket, connecting, becomes [wsRef.current]. *)
Definition connectWebSocket (c : Client) : Client :=
  setSockets c (Some (List.length (sockets c))) (sockets c ++ [mkSocket CONNECTING []]).

(** ws.onopen *)
Definition ws_onopen (c : Client) : Client := setIsConnected c true.

(** ws.onmessage; [parsed] is the outcome of [JSON.parse(event.data)].
    Every exception is caught and logged. *)
Definition ws_onmessage (c : Client) (parsed : result value) : Client :=
  match
    (message <- parsed ;;
     ty <- get message "type" ;;
     if strict_eq_str ty "state_update"
     then data <- get message "data" ;; Ok (setSimulationState c data)
     else if strict_eq_str ty "body_info"
     then data <- get message "data" ;; Ok (setBodyInfo c data)
     else Ok c)
  with
  | Ok c' => c'
  | Throw _ => c
  end.

(** ws.onerror *)
Definition ws_onerror (c : Client) : Client := c.

(** ws.onclose *)
Definition ws_onclose (c : Client) : Client :=
  setTimeout (setIsConnected c false) ConnectWebSocket 3000.

(** sendCommand *)
Definition sendCommand (c : Client) (command : value) : result Client :=
  match wsRef c with
  | Some id =>
      match nth_error (sockets c) id with
      | Some ws =>
          if readyState ws =? OPEN
          then ws' <- send ws (JSON_stringify command) ;;
               Ok (setSockets c (wsRef c) (store id ws' (sockets c)))
          else Ok c
      | None => Ok c
      end
  | None => Ok c
  end.

(** handlePlayPause *)
Definition handlePlayPause (c : Client) : result Client :=
  playing <- get (simulationState c) "is_playing" ;;
  let action := if truthy playing then "pause" else "play" in
  c1 <- sendCommand c (VObj [("type", VStr "control"); ("action", VStr action)]) ;;
  Ok (fetch c1 "http://localhost:8000/api/control/time"
        (JSON_stringify (VObj [("action", VStr action)]))).

(** The command object built by handleSpeedChange. *)
Definition speed_command (speed : number) : value :=
  VObj [("type", VStr "control"); ("action", VStr "set_speed"); ("speed", VNum speed)].

(** handleSpeedChange *)
Definition handleSpeedChange (c : Client) (speed : number) : result Client :=
  c1 <- sendCommand c (speed_command speed) ;;
  Ok (fetch c1 "http://localhost:8000/api/control/time"
        (JSON_stringify (VObj [("action", VStr "set_speed"); ("speed", VNum speed)]))).

(** The command object built by handleBodyClick. *)
Definition focus_command (bodyName : string) : value :=
  VObj [("type", VStr "focus"); ("body_name", VStr bodyName)].

(** handleBodyClick on a name that is a string, up to the REST request (its
    response is handled by [focus_response]). *)
Definition handleBodyClick (c : Client) (bodyName : string) : result Client :=
  let c0 := setSelectedBody c (VStr (toLowerCase bodyName)) in
  c1 <- sendCommand c0 (focus_command bodyName) ;;
  Ok (fetch c1 "http://localhost:8000/api/focus"
        (JSON_stringify (VObj [("body_name", VStr bodyName)]))).

(** The continuation of handleBodyClick once the REST response arrived. *)
Definition focus_response (c : Client) (ok : bool) (info : value) : Client :=
  if ok then setBodyInfo c info else c.

(** The useEffect cleanup: [if (wsRef.current) wsRef.current.close()]. *)
Definition cleanup (c : Client) : Client :=
  match wsRef c with
  | Some id =>
      match nth_error (sockets c) id with
      | Some ws => setSockets c (wsRef c) (store id (close ws) (sockets c))
      | None => c
      end
  | None => c
  end.

(** *** What the view hands to its children *)

Record Props : Type := mkProps {
  scene_bodies : value;        (* SolarSystem bodies *)
  scene_missions : value;      (* SolarSystem missions, MissionPanel missions *)
  scene_timeScale : value;     (* SolarSystem timeScale *)
  info_timestamp : value;      (* SimulationInfo timestamp *)
  info_realTime : value;       (* SimulationInfo realTime *)
  controls_isPlaying : value;  (* TimeControls isPlaying *)
  controls_timeScale : value   (* TimeControls timeScale *)
}.

(** The props computed by the render of OrbitEngine. *)
Definition render (c : Client) : result Props :=
  let st := simulationState c in
  bodies <- get st "bodies" ;;
  missions <- get st "missions" ;;
  time_scale <- get st "time_scale" ;;
  timestamp <- get st "timestamp" ;;
  real_timestamp <- get st "real_timestamp" ;;
  is_playing <- get st "is_playing" ;;
  Ok (mkProps bodies missions time_scale timestamp real_timestamp is_playing time_scale).

(** *** The browser runtime driving the handlers *)

(** A state_update message as the socket delivers it. *)
Definition state_update (data : value) : result value :=
  Ok (VObj [("type", VStr "state_update"); ("data", data)]).

Inductive event : Type :=
| EvOpen (id : nat)                       (* socket [id] finished connecting *)
| EvMessage (id : nat) (parsed : result value)
| EvError (id : nat)
| EvClose (id : nat)                      (* socket [id] closed *)
| EvTimer (k : nat)                       (* the [k]-th pending timer fires *)
| EvUnmount.

Definition set_readyState (c : Client) (id : nat) (rs : Z) : Client :=
  match nth_error (sockets c) id with
  | Some ws => setSockets c (wsRef c) (store id (mkSocket rs (sent ws)) (sockets c))
  | None => c
  end.

Fixpoint remove_nth {A : Type} (k : nat) (l : list A) : list A :=
  match l, k with
  | [], _ => []
  | _ :: rest, O => rest
  | x :: rest, S k' => x :: remove_nth k' rest
  end.

(** One event of the runtime; [None] when the event cannot occur in [c]
    (a socket opens only while connecting, receives only while open, and
    fires its close event once). *)
Definition dispatch (c : Client) (e : event) : option Client :=
  match e with
  | EvOpen id =>
      match nth_error (sockets c) id with
      | Some ws =>
          if readyState ws =? CONNECTING
          then Some (ws_onopen (set_readyState c id OPEN)) else None
      | None => None
      end
  | EvMessage id parsed =>
      match nth_error (sockets c) id with
      | Some ws => if readyState ws =? OPEN then Some (ws_onmessage c parsed) else None
      | None => None
      end
  | EvError id =>
      match nth_error (sockets c) id with
      | Some ws => if readyState ws =? CLOSED then None else Some (ws_onerror c)
      | None => None
      end
  | EvClose id =>
      match nth_error (sockets c) id with
      | Some ws =>
          if readyState ws =? CLOSED then None
          else Some (ws_onclose (set_readyState c id CLOSED))
      | None => None
      end
  | EvTimer k =>
      match nth_error (timers c) k with
      | Some (_, ConnectWebSocket) =>
          Some (connectWebSocket (setTimers c (remove_nth k (timers c))))
      | None => None
      end
  | EvUnmount => Some (cleanup c)
  end.

(** A run of the runtime from [c]. *)
Fixpoint run (c : Client) (es : list event) : option Client :=
  match es with
  | [] => Some c
  | e :: rest =>
      match dispatch c e with
      | Some c' => run c' rest
      | None => None
      end
  end.

(** The client once mounted: the effect has called connectWebSocket. *)
Definition mounted (now : string) : Client := connectWebSocket (initial now).

(** A socket that has not fired its close event yet. *)
Definition alive (ws : WebSocket) : nat :=
  if readyState ws =? CLOSED then 0%nat else 1%nat.

(** Connection attempts under way: sockets connecting, open or closing,
    and reconnection timers still pending. *)
Definition attempts (c : Client) : nat :=
  (list_sum (map alive (sockets c)) + List.length (timers c))%nat.

End OrbitEngine.

(* ===================================================================== *)
(** ** hooks/useWebSocket *)
(* ===================================================================== *)

Module UseWebSocket.
Import JS Socket.

Record Hook : Type := mkHook {
  isConnected : bool;
  error : value;
  wsRef : option WebSocket       (* wsRef.current *)
}.

(** sendMessage *)
Definition sendMessage (h : Hook) (message : value) : result Hook :=
  match wsRef h with
  | Some ws =>
      if readyState ws =? OPEN
      then ws' <- send ws (JSON_stringify message) ;;
           Ok (mkHook (isConnected h) (error h) (Some ws'))
      else Ok h
  | None => Ok h
  end.

End UseWebSocket.

(* ===================================================================== *)
(** ** components/SolarSystem.jsx: mission rendering *)
(* ===================================================================== *)

Module SolarSystem.
Import JS.

(** The props of a rendered <Spacecraft>. *)
Record Spacecraft : Type := mkSpacecraft {
  key : value;
  position : list value;
  trail : value
}.

(** The body of [missions.map((mission) => ...)] for spacecraft. *)
Definition spacecraft (mission : value) : result (option Spacecraft) :=
  status <- get mission "status" ;;
  current <- (if strict_eq_str status "active"
              then get mission "current_position" else Ok (VBool false)) ;;
  if truthy current
  then
    p <- get mission "current_position" ;;
    x <- idx p 0 ;;
    y <- idx p 1 ;;
    z <- idx p 2 ;;
    id <- get mission "id" ;;
    trajectory <- get mission "trajectory" ;;
    Ok (Some (mkSpacecraft id [x; y; z] (js_or trajectory (VArr []))))
  else Ok None.

Fixpoint mapM {A B : Type} (f : A -> result B) (l : list A) : result (list B) :=
  match l with
  | [] => Ok []
  | x :: rest => y <- f x ;; ys <- mapM f rest ;; Ok (y :: ys)
  end.

(** [missions.map(...)]: a TypeError unless [missions] is an array. *)
Definition render_spacecraft (missions : value) : result (list (option Spacecraft)) :=
  match missions with
  | VArr l => mapM spacecraft l
  | _ => Throw TypeError
  end.

End SolarSystem.

(* ===================================================================== *)
(** ** components/TrajectoryPlanner *)
(* ===================================================================== *)

Module TrajectoryPlanner.
Import JS DateModel Conv Socket.

(** *** PorkchopPlot *)

(** What a click leaves behind: the [selectedPoint] state and the argument
    of [onSelectPoint] when it was invoked. *)
Record click : Type := mkClick {
  selectedPoint : option (nat * nat);
  selected : option value
}.

(** [data.name[i][j]] *)
Definition cell (data : value) (name : string) (i j : nat) : result value :=
  grid <- get data name ;;
  row <- idx grid i ;;
  idx row j.

(** PorkchopPlot.handleCellClick; [sel] is the current [selectedPoint]. *)
Definition handleCellClick (sel : option (nat * nat)) (data : value) (i j : nat)
  : result click :=
  departure_dates <- get data "departure_dates" ;;
  depDate <- idx departure_dates i ;;
  arrival_dates <- get data "arrival_dates" ;;
  arrDate <- idx arrival_dates j ;;
  c3 <- cell data "c3" i j ;;
  deltaV <- cell data "delta_v" i j ;;
  tof <- cell data "time_of_flight" i j ;;
  if loose_eq_null c3 || loose_eq_null deltaV || loose_eq_null tof
  then Ok (mkClick sel None)
  else Ok (mkClick (Some (i, j))
             (Some (VObj [ ("departure_date", depDate);
                           ("arrival_date", arrDate);
                           ("c3", c3);
                           ("delta_v", deltaV);
                           ("time_of_flight", tof) ]))).

(** A PorkchopResponse as the planner receives it: the two date axes and
    the three grids, row [i] for departure date [i]. *)
Definition grid_of (departure_dates arrival_dates : list value)
  (c3 delta_v time_of_flight : list (list value)) : value :=
  VObj [ ("departure_dates", VArr departure_dates);
         ("arrival_dates", VArr arrival_dates);
         ("c3", VArr (map VArr c3));
         ("delta_v", VArr (map VArr delta_v));
         ("time_of_flight", VArr (map VArr time_of_flight));
         ("partial", VBool false) ].

(** Entry (i, j) of a grid; undefined outside the grid. *)
Definition entry (g : list (list value)) (i j : nat) : value :=
  nth j (nth i g []) VUndefined.



(** *** TrajectoryPlanner *)

Record Planner : Type := mkPlanner {
  departure : string;
  arrival : string;
  departureStart : string;
  departureEnd : string;
  arrivalStart : string;
  arrivalEnd : string;
  porkchopData : value;
  selectedTransfer : value;
  isCalculating : bool
}.

(** useState initial values. *)
Definition initial : Planner :=
  mkPlanner "earth" "mars" "" "" "" "" VNull VNull false.

(** [new Date(ms).toISOString().split('T')[0]] *)
Definition date_part (ms : Z) : result string :=
  s <- toISOString (TimeClip (Some ms)) ;;
  Ok (before_first "T" s).

(** The effect that sets the default dates; [today] is [Date.now()]. *)
Definition set_default_dates (p : Planner) (today : Z) : result Planner :=
  d0 <- date_part today ;;
  d1 <- date_part (today + 180 * 24 * 60 * 60 * 1000) ;;
  d2 <- date_part (today + 365 * 24 * 60 * 60 * 1000) ;;
  d3 <- date_part (today + 730 * 24 * 60 * 60 * 1000) ;;
  Ok (mkPlanner (departure p) (arrival p) d0 d1 d2 d3
        (porkchopData p) (selectedTransfer p) (isCalculating p)).

(** The onChange handlers of the four date inputs and two selects. *)
Definition setDepartureStart (p : Planner) (v : string) : Planner :=
  mkPlanner (departure p) (arrival p) v (departureEnd p) (arrivalStart p)
    (arrivalEnd p) (porkchopData p) (selectedTransfer p) (isCalculating p).

(** The body of the request calculatePorkchop posts to
    /api/trajectory/porkchop. *)
Definition calculatePorkchop_body (p : Planner) : frame :=
  JSON_stringify
    (VObj [ ("departure", VStr (departure p));
            ("arrival", VStr (arrival p));
            ("departure_start", VStr (departureStart p ++ "T00:00:00"));
            ("departure_end", VStr (departureEnd p ++ "T00:00:00"));
            ("arrival_start", VStr (arrivalStart p ++ "T00:00:00"));
            ("arrival_end", VStr (arrivalEnd p ++ "T00:00:00")) ]).

(** The body of the request calculateTransfer posts to
    /api/trajectory/calculate; a TypeError (caught and logged, nothing is
    sent) when [point] is null or undefined. *)
Definition calculateTransfer_body (p : Planner) (point : value) : result frame :=
  departure_date <- get point "departure_date" ;;
  arrival_date <- get point "arrival_date" ;;
  Ok (JSON_stringify
        (VObj [ ("departure", VStr (departure p));
                ("arrival", VStr (arrival p));
                ("departure_date", departure_date);
                ("arrival_date", arrival_date) ])).

(** calculateTransfer once the response [data] arrived:
    [setSelectedTransfer({...data, ...point})]. *)
Definition calculateTransfer_done (p : Planner) (data point : value) : Planner :=
  mkPlanner (departure p) (arrival p) (departureStart p) (departureEnd p)
    (arrivalStart p) (arrivalEnd p) (porkchopData p) (spread2 data point)
    (isCalculating p).

(** The body of the request handleLaunchMission posts to
    /api/mission/launch. *)
Definition handleLaunchMission_body (transfer : value) : frame :=
  JSON_stringify (VObj [("transfer_data", transfer)]).

End TrajectoryPlanner.

(* ===================================================================== *)
(** ** The data contracts, as the interface description words them *)
(* ===================================================================== *)

Module Contract.
Import JS Conv.

Definition two_digits (lo hi : Z) (s : string) : bool :=
  match s with
  | String a (String b EmptyString) =>
      is_digit a && is_digit b &&
      (let n := Z.of_nat (nat_of_ascii a - 48) * 10 + Z.of_nat (nat_of_ascii b - 48) in
       (lo <=? n) && (n <=? hi))
  | _ => false
  end.

Fixpoint all_digits (s : string) : bool :=
  match s with
  | EmptyString => true
  | String c rest => is_digit c && all_digits rest
  end.

(** A calendar date YYYY-MM-DD, the value of a filled date input. *)
Definition is_date (s : string) : bool :=
  (String.length s =? 10)%nat &&
  all_digits (substring 0 4 s) &&
  String.eqb (substring 4 1 s) "-" &&
  two_digits 1 12 (substring 5 2 s) &&
  String.eqb (substring 7 1 s) "-" &&
  two_digits 1 31 (substring 8 2 s).

(** The zone designator of an ISO-8601 time: none, Z, or +hh:mm / -hh:mm. *)
Definition is_zone (s : string) : bool :=
  String.eqb s "" || String.eqb s "Z" ||
  ((String.length s =? 6)%nat &&
   (String.eqb (substring 0 1 s) "+" || String.eqb (substring 0 1 s) "-") &&
   two_digits 0 23 (substring 1 2 s) &&
   String.eqb (substring 3 1 s) ":" &&
   two_digits 0 59 (substring 4 2 s)).

(** What follows the seconds: an optional decimal fraction, then the zone. *)
Definition is_fraction_zone (s : string) : bool :=
  match s with
  | String "."%char rest =>
      let '(_, n, tail) := read_digits rest 0 0 in
      negb (n =? 0)%nat && is_zone tail
  | _ => is_zone s
  end.

(** An ISO-8601 date-time in the extended format
    YYYY-MM-DDThh:mm:ss[.fff][zone]. *)
Definition is_iso8601_datetime (s : string) : bool :=
  is_date (substring 0 10 s) &&
  String.eqb (substring 10 1 s) "T" &&
  two_digits 0 23 (substring 11 2 s) &&
  String.eqb (substring 13 1 s) ":" &&
  two_digits 0 59 (substring 14 2 s) &&
  String.eqb (substring 16 1 s) ":" &&
  two_digits 0 59 (substring 17 2 s) &&
  is_fraction_zone (substring 19 (String.length s - 19) s).

(** Command: {kind:"control", action:"play"|"pause"},
    {kind:"control", action:"set_speed", speed:float>0},
    {kind:"focus", body:id}, {kind:"subscribe"|"unsubscribe"}. *)
Definition is_Command (j : json) : bool :=
  match json_get j "kind" with
  | Some (JStr "control") =>
      match json_get j "action" with
      | Some (JStr "play") | Some (JStr "pause") => true
      | Some (JStr "set_speed") =>
          match json_get j "speed" with
          | Some (JNum q) => negb (Qle_bool q 0)
          | _ => false
          end
      | _ => false
      end
  | Some (JStr "focus") =>
      match json_get j "body" with
      | Some (JStr _) => true
      | _ => false
      end
  | Some (JStr "subscribe") | Some (JStr "unsubscribe") => true
  | _ => false
  end.

Fixpoint has_all (keys : list string) (j : json) : bool :=
  match keys with
  | [] => true
  | k :: rest =>
      match json_get j k with
      | Some _ => has_all rest j
      | None => false
      end
  end.

(** TransferRequest: { departure, arrival, departure_date, arrival_date } *)
Definition is_TransferRequest (j : json) : bool :=
  has_all ["departure"; "arrival"; "departure_date"; "arrival_date"] j.

(** TransferResponse: { c3, delta_v, time_of_flight, departure_date,
    arrival_date, trajectory } *)
Definition is_TransferResponse (j : json) : bool :=
  has_all ["c3"; "delta_v"; "time_of_flight"; "departure_date"; "arrival_date";
           "trajectory"] j.

(** LaunchRequest: either a TransferResponse or a TransferRequest. *)
Definition is_LaunchRequest (j : json) : bool :=
  is_TransferResponse j || is_TransferRequest j.

(** A StateSnapshot with the clock and one mission under the interface
    description's field names. *)
Definition snapshot (sim_time : Z) (real_time : string) (time_scale : Z)
  (is_playing : bool) (missions : list value) : value :=
  VObj [ ("sim_time", num sim_time);
         ("real_time", VStr real_time);
         ("time_scale", num time_scale);
         ("is_playing", VBool is_playing);
         ("bodies", VObj []);
         ("missions", VArr missions) ].

(** A mission entry carrying its position as [current_position_au]. *)
Definition mission (id status : string) (x y z : Z) : value :=
  VObj [ ("id", VStr id);
         ("departure", VStr "earth");
         ("arrival", VStr "mars");
         ("status", VStr status);
         ("progress", VNum (Fin (1 # 2)));
         ("delta_v", num 6);
         ("current_position_au", VArr [num x; num y; num z]) ].

End Contract.

(* ===================================================================== *)
(** ** Scenarios *)
(* ===================================================================== *)

Module Scenario.
Import JS DateModel Socket OrbitEngine TrajectoryPlanner Contract.

(** A 1 x 2 grid whose first cell has a NaN launch energy. *)
Definition grid_nan : value :=
  grid_of [VStr "2026-04-01T00:00:00"]
          [VStr "2026-10-01T00:00:00"; VStr "2026-11-01T00:00:00"]
          [[VNum NaN; num 12]] [[num 6; num 5]] [[num 183; num 214]].


(** A transfer as calculateTransfer stores it: the server's response
    overlaid with the selected grid point. *)
Definition transfer_example : value :=
  VObj [ ("c3", num 12);
         ("delta_v", num 5);
         ("time_of_flight", num 214);
         ("departure_date", VStr "2026-04-01T00:00:00");
         ("arrival_date", VStr "2026-11-01T00:00:00");
         ("trajectory", VArr []) ].

(** The planner with the departure-start input cleared. *)
Definition planner_cleared : Planner :=
  setDepartureStart
    (mkPlanner "earth" "mars" "2026-04-01" "2026-12-01" "2026-10-01" "2028-01-01"
       VNull VNull false) "".

(** A snapshot under the interface description's names, with one active
    mission. *)
Definition snapshot_example : value :=
  snapshot 86400 "2024-01-02T00:00:00Z" 10 true [mission "mission-1" "active" 1 0 0].

(** The client once its socket has opened. *)
Definition client_open : Client :=
  ws_onopen (set_readyState (mounted "2024-01-01T00:00:00Z") 0 OPEN).

End Scenario.

(* ===================================================================== *)
(** ** Number comparisons used by the plot *)
(* ===================================================================== *)

Module Arith.
Import JS DateModel.

(** [a <= b]; false as soon as one side is NaN. *)
Definition num_le (a b : number) : bool :=
  match a, b with
  | NaN, _ | _, NaN => false
  | NegInf, _ | _, PosInf => true
  | PosInf, _ | _, NegInf => false
  | Fin x, Fin y => Qle_bool x y
  end.

(** Math.min(...l): +Infinity on no argument, NaN as soon as one is NaN. *)
Fixpoint Math_min (l : list number) : number :=
  match l with
  | [] => PosInf
  | x :: rest =>
      match x, Math_min rest with
      | NaN, _ | _, NaN => NaN
      | a, b => if num_le a b then a else b
      end
  end.

(** Math.max(...l): -Infinity on no argument, NaN as soon as one is NaN. *)
Fixpoint Math_max (l : list number) : number :=
  match l with
  | [] => NegInf
  | x :: rest =>
      match x, Math_max rest with
      | NaN, _ | _, NaN => NaN
      | a, b => if num_le a b then b else a
      end
  end.

End Arith.

(* ===================================================================== *)
(** ** components/TrajectoryPlanner: PorkchopPlot extremes and rendering *)
(* ===================================================================== *)

Module PorkchopPlot.
Import JS DateModel Arith TrajectoryPlanner.

(** A cell of the c3 grid as PorkchopResponse declares it: a float, or
    null ([None]). *)
Definition c3cell : Type := option number.

(** [v != null && !isNaN(v)] *)
Definition valid (v : c3cell) : bool :=
  match v with
  | None => false
  | Some NaN => false
  | Some _ => true
  end.

(** [data.c3.flat().filter(v => v != null && !isNaN(v))] *)
Definition flatC3 (c3 : list (list c3cell)) : list number :=
  flat_map (fun row =>
              flat_map (fun v => match v with
                                 | Some n => if valid v then [n] else []
                                 | None => []
                                 end) row) c3.

(** [flatC3.length > 0 ? Math.min(...flatC3) : 0] *)
Definition minC3 (c3 : list (list c3cell)) : number :=
  match flatC3 c3 with
  | [] => Fin 0
  | l => Math_min l
  end.

(** [flatC3.length > 0 ? Math.max(...flatC3) : 100] *)
Definition maxC3 (c3 : list (list c3cell)) : number :=
  match flatC3 c3 with
  | [] => Fin 100
  | l => Math_max l
  end.

(** The guard at the top of PorkchopPlot: [if (!data || !data.c3) return
    null]; [true] when the plot is rendered. *)
Definition rendered (data : value) : result bool :=
  if truthy data
  then c3 <- get data "c3" ;; Ok (truthy c3)
  else Ok false.

(** What the grid template is built from, [data.c3[0].length], read for
    every rendered plot. *)
Definition columns (data : value) : result value :=
  c3 <- get data "c3" ;;
  row <- idx c3 0 ;;
  match row with
  | VUndefined | VNull => Throw TypeError
  | VArr l => Ok (num (Z.of_nat (List.length l)))
  | VStr s => Ok (num (Z.of_nat (String.length s)))
  | VObj fields => Ok (field "length" fields)
  | _ => Ok VUndefined
  end.

End PorkchopPlot.

(* ===================================================================== *)
(** ** components/SolarSystem.jsx: trajectories *)
(* ===================================================================== *)

Module Scene.
Import JS SolarSystem.

(** The points of a rendered trajectory <Line>: one per sample, read from
    [point.position]. *)
Definition line_point (point : value) : result (list value) :=
  p <- get point "position" ;;
  x <- idx p 0 ;;
  y <- idx p 1 ;;
  z <- idx p 2 ;;
  Ok [x; y; z].

(** A sample that carries its position, as three coordinates, under the
    field name [position]. *)
Definition positioned (sample : value) (point : list value) : Prop :=
  exists fields x y z,
    sample = VObj fields
    /\ lookup "position" fields = Some (VArr [x; y; z])
    /\ point = [x; y; z].

(** The body of [missions.map((mission) => ...)] for trajectories, for a
    mission whose trajectory is the array [samples]: a line when
    [mission.trajectory.length > 1]. *)
Definition trajectory_line (samples : list value) : result (option (list (list value))) :=
  if (1 <? List.length samples)%nat
  then pts <- mapM line_point samples ;; Ok (Some pts)
  else Ok None.

End Scene.

(* ===================================================================== *)
(** ** hooks/useWebSocket: the socket's handlers and the effect *)
(* ===================================================================== *)

Module HookRuntime.
Import JS Socket UseWebSocket.

(** A mounted hook: its state and [wsRef.current], and the sockets of
    earlier runs of the effect, which [wsRef] no longer designates but whose
    handlers can still be called. *)
Record Mounted : Type := mkMounted {
  hook : Hook;
  stale : list WebSocket
}.

Definition with_readyState (h : Hook) (rs : Z) : Hook :=
  match wsRef h with
  | Some ws => mkHook (isConnected h) (error h) (Some (mkSocket rs (sent ws)))
  | None => h
  end.

(** ws.onopen *)
Definition onopen (h : Hook) : Hook := mkHook true VNull (wsRef h).

(** ws.onerror *)
Definition onerror (h : Hook) (e : value) : Hook := mkHook (isConnected h) e (wsRef h).

(** ws.onclose *)
Definition onclose (h : Hook) : Hook := mkHook false (error h) (wsRef h).

(** ws.onmessage: what is handed to the [onMessage] callback, if anything;
    [callback] tells whether a callback was given. *)
Definition onmessage (callback : bool) (parsed : result value) : option value :=
  match parsed with
  | Ok message => if callback then Some message else None
  | Throw _ => None
  end.

(** The effect's cleanup: [if (wsRef.current) wsRef.current.close()]. *)
Definition cleanup (h : Hook) : Hook :=
  match wsRef h with
  | Some ws => mkHook (isConnected h) (error h) (Some (close ws))
  | None => h
  end.

(** The effect runs again because [url] or [onMessage] changed: the
    cleanup of the previous run closes the current socket, then a new
    socket is created and stored in [wsRef.current]. *)
Definition rerun (m : Mounted) : Mounted :=
  mkMounted
    (mkHook (isConnected (hook m)) (error (hook m)) (Some (mkSocket CONNECTING [])))
    (stale m ++ match wsRef (hook m) with
                | Some ws => [close ws]
                | None => []
                end).

Inductive event : Type :=
| HOpen                                   (* events of the current socket *)
| HMessage (parsed : result value)
| HError (e : value)
| HClose
| HStaleMessage (k : nat) (parsed : result value)   (* events of a replaced socket *)
| HStaleError (k : nat) (e : value)
| HStaleClose (k : nat)
| HRerun                                  (* url or onMessage changed *)
| HCleanup                                (* the component unmounts *)
| HSend (message : value).                (* the component calls sendMessage *)

Definition is_rerun (e : event) : bool :=
  match e with
  | HRerun => true
  | _ => false
  end.

(** One event on the mounted hook; [None] when it cannot occur (a socket
    opens only while connecting, receives until it is closed, and fires its
    close event once). *)
Definition dispatch (m : Mounted) (e : event) : option Mounted :=
  let h := hook m in
  match e with
  | HOpen =>
      match wsRef h with
      | Some ws =>
          if readyState ws =? CONNECTING
          then Some (mkMounted (onopen (with_readyState h OPEN)) (stale m))
          else None
      | None => None
      end
  | HMessage _ =>
      match wsRef h with
      | Some ws =>
          if (readyState ws =? OPEN) || (readyState ws =? CLOSING) then Some m else None
      | None => None
      end
  | HError e =>
      match wsRef h with
      | Some ws =>
          if readyState ws =? CLOSED then None
          else Some (mkMounted (onerror h e) (stale m))
      | None => None
      end
  | HClose =>
      match wsRef h with
      | Some ws =>
          if readyState ws =? CLOSED then None
          else Some (mkMounted (onclose (with_readyState h CLOSED)) (stale m))
      | None => None
      end
  | HStaleMessage k _ =>
      match nth_error (stale m) k with
      | Some ws => if readyState ws =? CLOSED then None else Some m
      | None => None
      end
  | HStaleError k e =>
      match nth_error (stale m) k with
      | Some ws =>
          if readyState ws =? CLOSED then None
          else Some (mkMounted (onerror h e) (stale m))
      | None => None
      end
  | HStaleClose k =>
      match nth_error (stale m) k with
      | Some ws =>
          if readyState ws =? CLOSED then None
          else Some (mkMounted (onclose h)
                       (store k (mkSocket CLOSED (sent ws)) (stale m)))
      | None => None
      end
  | HRerun => Some (rerun m)
  | HCleanup => Some (mkMounted (cleanup h) (stale m))
  | HSend message =>
      match sendMessage h message with
      | Ok h' => Some (mkMounted h' (stale m))
      | Throw _ => None
      end
  end.

Fixpoint run (m : Mounted) (es : list event) : option Mounted :=
  match es with
  | [] => Some m
  | e :: rest =>
      match dispatch m e with
      | Some m' => run m' rest
      | None => None
      end
  end.

End HookRuntime.

(* ===================================================================== *)
(** ** views/OrbitEngine.jsx: the shape of a connected client *)
(* ===================================================================== *)

Module Connection.
Import JS Conv Socket OrbitEngine.

Definition closed (ws : WebSocket) : Prop := readyState ws = CLOSED.

(** The sockets are the closed ones of earlier attempts followed by the
    current one, which [wsRef.current] designates; a reconnection timer is
    pending exactly while the current socket is closed, and the connected
    flag is up only while it is open or closing. *)
Definition well_connected (c : Client) : Prop :=
  exists old last,
    sockets c = (old ++ [last])%list
    /\ wsRef c = Some (List.length old)
    /\ Forall closed old
    /\ ((readyState last = CLOSED /\ timers c = [(3000, ConnectWebSocket)]
         /\ isConnected c = false)
        \/ (readyState last = CONNECTING /\ timers c = [] /\ isConnected c = false)
        \/ ((readyState last = OPEN \/ readyState last = CLOSING) /\ timers c = [])).

(** Whether a name is ASCII text, on which [Conv.toLowerCase] is the
    built-in toLowerCase. *)
Fixpoint ascii_only (s : string) : bool :=
  match s with
  | EmptyString => true
  | String c rest => (nat_of_ascii c <? 128)%nat && ascii_only rest
  end.

(** handleBodyClick as the scene calls it, [onBodyClick(body.name)], with
    whatever the body carries as its name: [bodyName.toLowerCase()] throws
    a TypeError unless the name is a string, before anything is stored or
    sent. *)
Definition onBodyClick (c : Client) (name : value) : result Client :=
  match name with
  | VStr bodyName => handleBodyClick c bodyName
  | _ => Throw TypeError
  end.

(** The commands [cmds] issued one after the other through sendCommand. *)
Fixpoint sendAll (c : Client) (cmds : list value) : result Client :=
  match cmds with
  | [] => Ok c
  | cmd :: rest => c' <- sendCommand c cmd ;; sendAll c' rest
  end.

End Connection.

(* ===================================================================== *)
(** ** components/TrajectoryPlanner: the two body selects *)
(* ===================================================================== *)

Module PlannerForm.
Import JS TrajectoryPlanner.

(** TrajectoryPlanner.planets *)
Definition planets : list string :=
  [ "mercury"; "venus"; "earth"; "mars"; "jupiter"; "saturn"; "uranus"; "neptune" ].

(** The options of the arrival select: [planets.filter(p => p !== departure)]. *)
Definition arrival_options (departure : string) : list string :=
  filter (fun p => negb (String.eqb p departure)) planets.

(** The onChange handler of the departure select: [setDeparture(e.target.value)]. *)
Definition setDeparture (p : Planner) (v : string) : Planner :=
  mkPlanner v (arrival p) (departureStart p) (departureEnd p) (arrivalStart p)
    (arrivalEnd p) (porkchopData p) (selectedTransfer p) (isCalculating p).

(** The onChange handler of the arrival select: [setArrival(e.target.value)]. *)
Definition setArrival (p : Planner) (v : string) : Planner :=
  mkPlanner (departure p) v (departureStart p) (departureEnd p) (arrivalStart p)
    (arrivalEnd p) (porkchopData p) (selectedTransfer p) (isCalculating p).

End PlannerForm.

(* ===================================================================== *)
(** * Properties *)
(* ===================================================================== *)

Import JS DateModel Conv Socket.

(** ** Objects and sockets: shared facts *)

Lemma lookup_obj_set (k k' : string) (v : value) (fields : list (string * value)) :
  lookup k (obj_set k' v fields)
  = if String.eqb k k' then Some v else lookup k fields.
Proof.
  induction fields as [| [k0 v0] rest IH]; simpl.
  - destruct (String.eqb k k') eqn:E; reflexivity.
  - destruct (String.eqb k' k0) eqn:E0; simpl.
    + apply String.eqb_eq in E0; subst k0.
      destruct (String.eqb k k'); reflexivity.
    + destruct (String.eqb k k0) eqn:E1.
      * apply String.eqb_eq in E1; subst k0.
        rewrite String.eqb_sym, E0. reflexivity.
      * exact IH.
Qed.

Lemma nth_error_store (id : nat) (ws ws' : WebSocket) (heap : list WebSocket) :
  nth_error heap id = Some ws -> nth_error (store id ws' heap) id = Some ws'.
Proof.
  revert id; induction heap as [| w rest IH]; intros [| id] H; simpl in *;
    try discriminate; auto.
Qed.

(** ** PorkchopPlot *)

Module PorkchopFacts.
Import TrajectoryPlanner.

Lemma entry_defined_row (g : list (list value)) (i j : nat) :
  loose_eq_null (entry g i j) = false ->
  nth i (map VArr g) VUndefined = VArr (nth i g []).
Proof.
  unfold entry. revert i. induction g as [| r g IH]; intros [| i] H; simpl in *.
  - destruct j; discriminate.
  - destruct j; discriminate.
  - reflexivity.
  - apply IH, H.
Qed.

Lemma cell_entry (dds ads : list value) (c3 dv tof : list (list value))
  (name : string) (g : list (list value)) (i j : nat) :
  lookup name (own_fields (grid_of dds ads c3 dv tof)) = Some (VArr (map VArr g)) ->
  loose_eq_null (entry g i j) = false ->
  cell (grid_of dds ads c3 dv tof) name i j = Ok (entry g i j).
Proof.
  intros Hl Hn. unfold cell, get, grid_of in *. simpl own_fields in Hl.
  rewrite Hl. simpl. rewrite (entry_defined_row g i j Hn). reflexivity.
Qed.

Lemma nth_row (g : list (list value)) (i : nat) :
  (i < List.length g)%nat ->
  nth i (map VArr g) VUndefined = VArr (nth i g []).
Proof.
  revert i. induction g as [| r g IH]; intros [| i] Hi; simpl in *; try lia; auto.
  apply IH. lia.
Qed.

Lemma cell_in_row (dds ads : list value) (c3 dv tof : list (list value))
  (name : string) (g : list (list value)) (i j : nat) :
  lookup name (own_fields (grid_of dds ads c3 dv tof)) = Some (VArr (map VArr g)) ->
  (i < List.length g)%nat ->
  cell (grid_of dds ads c3 dv tof) name i j = Ok (entry g i j).
Proof.
  intros Hl Hi. unfold cell, get, grid_of in *. simpl own_fields in Hl.
  rewrite Hl. simpl. rewrite (nth_row g i Hi). reflexivity.
Qed.

End PorkchopFacts.

Import TrajectoryPlanner PorkchopFacts Scenario.

(** A cell of the grid with a null or undefined c3, delta_v or
    time_of_flight entry leaves the selection unchanged and does not invoke
    the selection callback. *)
Lemma null_cell_is_a_hole (sel : option (nat * nat)) (dds ads : list value)
  (c3 dv tof : list (list value)) (i j : nat) :
  (i < List.length c3)%nat -> (i < List.length dv)%nat -> (i < List.length tof)%nat ->
  loose_eq_null (entry c3 i j) || loose_eq_null (entry dv i j)
    || loose_eq_null (entry tof i j) = true ->
  handleCellClick sel (grid_of dds ads c3 dv tof) i j = Ok (mkClick sel None).
Proof.
  intros H1 H2 H3 Hn. unfold handleCellClick.
  rewrite (cell_in_row dds ads c3 dv tof "c3" c3 i j eq_refl H1).
  rewrite (cell_in_row dds ads c3 dv tof "delta_v" dv i j eq_refl H2).
  rewrite (cell_in_row dds ads c3 dv tof "time_of_flight" tof i j eq_refl H3).
  simpl. rewrite Hn. reflexivity.
Qed.





(** C4: in a porkchop grid, clicking a cell (i, j) whose three entries are
    non-null selects exactly the transfer with departure date
    departure_dates[i], arrival date arrival_dates[j] and the values
    c3[i][j], delta_v[i][j], time_of_flight[i][j]. *)
Theorem C4_cell_click_indexing (sel : option (nat * nat)) (dds ads : list value)
  (c3 dv tof : list (list value)) (i j : nat) :
  loose_eq_null (entry c3 i j) = false ->
  loose_eq_null (entry dv i j) = false ->
  loose_eq_null (entry tof i j) = false ->
  handleCellClick sel (grid_of dds ads c3 dv tof) i j
  = Ok (mkClick (Some (i, j))
          (Some (VObj [ ("departure_date", nth i dds VUndefined);
                        ("arrival_date", nth j ads VUndefined);
                        ("c3", entry c3 i j);
                        ("delta_v", entry dv i j);
                        ("time_of_flight", entry tof i j) ]))).
Proof.
  intros H1 H2 H3. unfold handleCellClick.
  rewrite (cell_entry dds ads c3 dv tof "c3" c3 i j eq_refl H1).
  rewrite (cell_entry dds ads c3 dv tof "delta_v" dv i j eq_refl H2).
  rewrite (cell_entry dds ads c3 dv tof "time_of_flight" tof i j eq_refl H3).
  simpl. rewrite H1, H2, H3. reflexivity.
Qed.

Lemma C4_cell_click_indexing_witness :
  handleCellClick None grid_nan 0 1
  = Ok (mkClick (Some (0%nat, 1%nat))
          (Some (VObj [ ("departure_date", VStr "2026-04-01T00:00:00");
                        ("arrival_date", VStr "2026-11-01T00:00:00");
                        ("c3", num 12);
                        ("delta_v", num 5);
                        ("time_of_flight", num 214) ]))).
Proof.
  apply (C4_cell_click_indexing None
           [VStr "2026-04-01T00:00:00"]
           [VStr "2026-10-01T00:00:00"; VStr "2026-11-01T00:00:00"]
           [[VNum NaN; num 12]] [[num 6; num 5]] [[num 183; num 214]] 0 1);
    reflexivity.
Defined.

(** ** TrajectoryPlanner requests *)

Import Contract.

Lemma date_then_midnight (s : string) :
  is_date s = true -> is_iso8601_datetime (s ++ "T00:00:00") = true.
Proof.
  intros H.
  assert (L : String.length s = 10%nat).
  { unfold is_date in H. repeat (apply andb_true_iff in H; destruct H as [H ?]).
    apply Nat.eqb_eq. assumption. }
  do 10 (destruct s as [| ? s]; [discriminate L |]).
  destruct s; [| discriminate L].
  unfold is_iso8601_datetime.
  cbn [append substring String.length Nat.sub].
  change (is_date _) with
    (is_date (String a (String a0 (String a1 (String a2 (String a3 (String a4
       (String a5 (String a6 (String a7 (String a8 "")))))))))))
    in H.
  cbn [substring] in H |- *.
  rewrite H. reflexivity.
Qed.

(** C5 (counterexample): with the departure-start date input cleared, the
    porkchop request carries the date field "T00:00:00", which is not an
    ISO-8601 date-time. *)
Lemma C5_cleared_date_input :
  (exists j, calculatePorkchop_body planner_cleared = Some j
             /\ json_get j "departure_start" = Some (JStr "T00:00:00"))
  /\ is_iso8601_datetime "T00:00:00" = false.
Proof.
  split; [eexists; split; reflexivity | reflexivity].
Qed.

(** C5 (amended): every porkchop request is an object with exactly the fields
    departure, arrival, departure_start, departure_end, arrival_start,
    arrival_end, each date field being the date input's value followed by
    T00:00:00 and hence an ISO-8601 date-time whenever the input holds a
    date; every single-transfer request for a selected point with both
    dates defined is an object with exactly the fields departure, arrival,
    departure_date, arrival_date. *)
Theorem C5_planner_requests (p : Planner) :
  calculatePorkchop_body p
  = Some (JObj [ ("departure", JStr (departure p));
                 ("arrival", JStr (arrival p));
                 ("departure_start", JStr (departureStart p ++ "T00:00:00"));
                 ("departure_end", JStr (departureEnd p ++ "T00:00:00"));
                 ("arrival_start", JStr (arrivalStart p ++ "T00:00:00"));
                 ("arrival_end", JStr (arrivalEnd p ++ "T00:00:00")) ])
  /\ (forall s, is_date s = true -> is_iso8601_datetime (s ++ "T00:00:00") = true)
  /\ (forall point dep arr jdep jarr,
         get point "departure_date" = Ok dep ->
         get point "arrival_date" = Ok arr ->
         JSON_stringify dep = Some jdep ->
         JSON_stringify arr = Some jarr ->
         calculateTransfer_body p point
         = Ok (Some (JObj [ ("departure", JStr (departure p));
                            ("arrival", JStr (arrival p));
                            ("departure_date", jdep);
                            ("arrival_date", jarr) ]))).
Proof.
  split; [reflexivity | split; [exact date_then_midnight |]].
  intros point dep arr jdep jarr Hd Ha Jd Ja.
  unfold calculateTransfer_body. rewrite Hd, Ha. simpl. rewrite Jd, Ja. reflexivity.
Qed.

(** C6 (counterexample): the launch request built from a complete transfer
    nests it under transfer_data, so the body itself is neither a
    TransferResponse nor a TransferRequest, although the transfer is one. *)
Lemma C6_launch_body_is_nested :
  (exists j t, handleLaunchMission_body transfer_example = Some j
               /\ JSON_stringify transfer_example = Some t
               /\ json_keys j = ["transfer_data"]
               /\ is_LaunchRequest j = false
               /\ is_LaunchRequest t = true).
Proof.
  do 2 eexists. repeat split; reflexivity.
Qed.

(** C6 (amended): for every mission launch, the request body sent to the
    launch endpoint is an object whose only field, transfer_data, holds the
    transfer (the field is left out when the transfer is undefined). *)
Theorem C6_launch_body (transfer : value) :
  handleLaunchMission_body transfer
  = Some (JObj match JSON_stringify transfer with
               | Some j => [("transfer_data", j)]
               | None => []
               end).
Proof.
  unfold handleLaunchMission_body.
  change (JSON_stringify (VObj [("transfer_data", transfer)]))
    with (Some (JObj match JSON_stringify transfer with
                     | Some j => [("transfer_data", j)]
                     | None => []
                     end)).
  reflexivity.
Qed.

(** After calculateTransfer, the selected transfer carries the clicked
    point's five fields, whatever the server answered. *)
Lemma selected_transfer_keeps_point (p : Planner) (data depDate arrDate c3 dv tof : value) :
  let point := VObj [ ("departure_date", depDate); ("arrival_date", arrDate);
                      ("c3", c3); ("delta_v", dv); ("time_of_flight", tof) ] in
  let t := selectedTransfer (calculateTransfer_done p data point) in
  get t "departure_date" = Ok depDate /\ get t "arrival_date" = Ok arrDate
  /\ get t "c3" = Ok c3 /\ get t "delta_v" = Ok dv /\ get t "time_of_flight" = Ok tof.
Proof.
  simpl. unfold spread2, get. simpl.
  repeat rewrite lookup_obj_set. simpl. repeat split; reflexivity.
Qed.

Lemma C5_planner_requests_witness :
  is_iso8601_datetime ("2026-04-01" ++ "T00:00:00") = true
  /\ calculateTransfer_body planner_cleared
       (VObj [ ("departure_date", VStr "2026-04-01T00:00:00");
               ("arrival_date", VStr "2026-11-01T00:00:00");
               ("c3", num 12); ("delta_v", num 5); ("time_of_flight", num 214) ])
     = Ok (Some (JObj [ ("departure", JStr "earth");
                        ("arrival", JStr "mars");
                        ("departure_date", JStr "2026-04-01T00:00:00");
                        ("arrival_date", JStr "2026-11-01T00:00:00") ])).
Proof.
  destruct (C5_planner_requests planner_cleared) as [_ [Hdate Hreq]].
  split.
  - apply Hdate. reflexivity.
  - apply (Hreq _ (VStr "2026-04-01T00:00:00") (VStr "2026-11-01T00:00:00"));
      reflexivity.
Defined.

(** ** TimeControls *)

Import OrbitEngine.

(** C7: every speed the time controls hand to handleSpeedChange is the value
    of one of the seven options 1, 10, 100, 1000, 10000, 100000, 1000000,
    hence positive, and the set_speed command carries exactly that speed. *)
Theorem C7_speed_is_a_positive_option (o : ControlPanel.speedOption) :
  In o ControlPanel.speedOptions ->
  ControlPanel.select_onChange o = Fin (inject_Z (ControlPanel.value o))
  /\ In (ControlPanel.value o) [1; 10; 100; 1000; 10000; 100000; 1000000]
  /\ (0 < inject_Z (ControlPanel.value o))%Q
  /\ JSON_stringify (speed_command (ControlPanel.select_onChange o))
     = Some (JObj [ ("type", JStr "control");
                    ("action", JStr "set_speed");
                    ("speed", JNum (inject_Z (ControlPanel.value o))) ]).
Proof.
  intros H. unfold ControlPanel.speedOptions in H. simpl in H.
  repeat (destruct H as [H | H]; [subst o; repeat split; simpl; tauto |]).
  contradiction.
Qed.

Lemma C7_speed_is_a_positive_option_witness :
  ControlPanel.select_onChange (ControlPanel.mkOption 1000 "1,000x") = Fin (inject_Z 1000)
  /\ (0 < inject_Z 1000)%Q.
Proof.
  destruct (C7_speed_is_a_positive_option (ControlPanel.mkOption 1000 "1,000x")) as [H1 [_ [H2 _]]].
  - unfold ControlPanel.speedOptions. simpl. tauto.
  - split; [exact H1 | exact H2].
Defined.

(** ** The engine view: state updates, commands, reconnection *)

Import SolarSystem.

Lemma get_field (k : string) (fields : list (string * value)) :
  get (VObj fields) k = Ok (field k fields).
Proof. unfold get, field. destruct (lookup k fields); reflexivity. Qed.

(** C1 (counterexample): a state update that carries sim_time, real_time and
    current_position_au is not consumed under these names: the simulation
    time and wall time handed to SimulationInfo are undefined (the display
    falls back to 0) and the active mission's spacecraft is not drawn. *)
Lemma C1_spec_names_not_consumed :
  exists props,
    render (ws_onmessage (mounted "2024-01-01T00:00:00Z") (state_update snapshot_example))
    = Ok props
    /\ get snapshot_example "sim_time" = Ok (num 86400)
    /\ info_timestamp props = VUndefined
    /\ ControlPanel.simTime_arg (info_timestamp props) = num 0
    /\ info_realTime props = VUndefined
    /\ render_spacecraft (scene_missions props) = Ok [None].
Proof.
  eexists. repeat split; reflexivity.
Qed.

(** C1 (amended): every state update the client consumes is read under the
    field names timestamp, real_timestamp, time_scale and is_playing
    (with bodies and missions), and a mission entry is drawn at the position
    it carries under the field name current_position; an entry without that
    field is not drawn. *)
Theorem C1_state_update_fields (c : Client) (fields : list (string * value)) :
  render (ws_onmessage c (state_update (VObj fields)))
  = Ok {| scene_bodies := field "bodies" fields;
          scene_missions := field "missions" fields;
          scene_timeScale := field "time_scale" fields;
          info_timestamp := field "timestamp" fields;
          info_realTime := field "real_timestamp" fields;
          controls_isPlaying := field "is_playing" fields;
          controls_timeScale := field "time_scale" fields |}
  /\ (forall m x y z,
         lookup "status" m = Some (VStr "active") ->
         lookup "current_position" m = Some (VArr [x; y; z]) ->
         spacecraft (VObj m)
         = Ok (Some (mkSpacecraft (field "id" m) [x; y; z]
                       (js_or (field "trajectory" m) (VArr [])))))
  /\ (forall m, lookup "current_position" m = None -> spacecraft (VObj m) = Ok None).
Proof.
  split; [| split].
  - unfold state_update, ws_onmessage, render, field. simpl.
    repeat match goal with
           | |- context [lookup ?k fields] => destruct (lookup k fields)
           end; reflexivity.
  - intros m x y z Hs Hp. unfold spacecraft.
    repeat rewrite get_field. unfold field. rewrite Hs, Hp. reflexivity.
  - intros m Hp. unfold spacecraft.
    repeat rewrite get_field. unfold field at 1 2. rewrite Hp.
    destruct (lookup "status" m) as [v |]; simpl; [| reflexivity].
    destruct (strict_eq_str v "active"); reflexivity.
Qed.

Lemma C1_state_update_fields_witness :
  spacecraft (VObj [ ("id", VStr "mission-1"); ("status", VStr "active");
                     ("current_position", VArr [num 1; num 0; num 0]) ])
  = Ok (Some (mkSpacecraft (VStr "mission-1") [num 1; num 0; num 0] (VArr [])))
  /\ spacecraft (mission "mission-1" "active" 1 0 0) = Ok None.
Proof.
  destruct (C1_state_update_fields (mounted "") []) as [_ [Hdrawn Hnot]].
  split.
  - exact (Hdrawn [ ("id", VStr "mission-1"); ("status", VStr "active");
                     ("current_position", VArr [num 1; num 0; num 0]) ]
             (num 1) (num 0) (num 0) eq_refl eq_refl).
  - apply Hnot. reflexivity.
Defined.

(** *** Sending *)

Lemma sendCommand_open (c : Client) (command : value) (id : nat) (ws : WebSocket) :
  wsRef c = Some id -> nth_error (sockets c) id = Some ws -> readyState ws = OPEN ->
  sendCommand c command
  = Ok (setSockets c (Some id)
          (store id (mkSocket OPEN (sent ws ++ [JSON_stringify command])) (sockets c))).
Proof.
  intros Hr Hs Ho. unfold sendCommand, send. rewrite Hr, Hs, Ho. reflexivity.
Qed.

Lemma sendCommand_not_open (c : Client) (command : value) :
  (forall id ws, wsRef c = Some id -> nth_error (sockets c) id = Some ws ->
                 readyState ws <> OPEN) ->
  sendCommand c command = Ok c.
Proof.
  intros H. unfold sendCommand.
  destruct (wsRef c) as [id |] eqn:Hr; [| reflexivity].
  destruct (nth_error (sockets c) id) as [ws |] eqn:Hs; [| reflexivity].
  destruct (readyState ws =? OPEN) eqn:E; [| reflexivity].
  apply Z.eqb_eq in E. exfalso. exact (H id ws eq_refl Hs E).
Qed.

(** C9: sendCommand and sendMessage transmit a command exactly when the
    socket exists and its readyState is OPEN; otherwise they return normally
    and leave the client as it was: nothing is sent, nothing is queued. *)
Theorem C9_send_only_when_open (c : Client) (h : UseWebSocket.Hook) (command : value) :
  (forall id ws,
      wsRef c = Some id -> nth_error (sockets c) id = Some ws -> readyState ws = OPEN ->
      sendCommand c command
      = Ok (setSockets c (Some id)
              (store id (mkSocket OPEN (sent ws ++ [JSON_stringify command]))
                 (sockets c))))
  /\ ((forall id ws, wsRef c = Some id -> nth_error (sockets c) id = Some ws ->
                     readyState ws <> OPEN) ->
      sendCommand c command = Ok c)
  /\ (forall ws,
         UseWebSocket.wsRef h = Some ws -> readyState ws = OPEN ->
         UseWebSocket.sendMessage h command
         = Ok (UseWebSocket.mkHook (UseWebSocket.isConnected h) (UseWebSocket.error h)
                 (Some (mkSocket OPEN (sent ws ++ [JSON_stringify command])))))
  /\ ((forall ws, UseWebSocket.wsRef h = Some ws -> readyState ws <> OPEN) ->
      UseWebSocket.sendMessage h command = Ok h).
Proof.
  split; [| split; [| split]].
  - intros id ws. apply sendCommand_open.
  - apply sendCommand_not_open.
  - intros ws Hr Ho. unfold UseWebSocket.sendMessage, send. rewrite Hr, Ho. reflexivity.
  - intros H. unfold UseWebSocket.sendMessage.
    destruct (UseWebSocket.wsRef h) as [ws |] eqn:Hr; [| reflexivity].
    destruct (readyState ws =? OPEN) eqn:E; [| reflexivity].
    apply Z.eqb_eq in E. exfalso. exact (H ws eq_refl E).
Qed.

Lemma client_open_reached :
  run (mounted "2024-01-01T00:00:00Z") [EvOpen 0] = Some client_open.
Proof. reflexivity. Qed.

(** C2 (counterexample): the play command and the focus command the client
    sends have no kind field and no body field; neither is one of the
    Command shapes. *)
Lemma C2_commands_lack_kind_and_body :
  exists c1 c2 j1 j2,
    handlePlayPause client_open = Ok c1
    /\ nth_error (sockets c1) 0 = Some (mkSocket OPEN [Some j1])
    /\ json_get j1 "kind" = None /\ is_Command j1 = false
    /\ handleBodyClick client_open "Mars" = Ok c2
    /\ nth_error (sockets c2) 0 = Some (mkSocket OPEN [Some j2])
    /\ json_get j2 "kind" = None /\ json_get j2 "body" = None
    /\ is_Command j2 = false.
Proof.
  do 4 eexists. repeat split; reflexivity.
Qed.

(** C2 (amended): while the socket is open, every play/pause, speed-change
    and body-click interaction sends exactly one message, of the form
    {type:"control", action:"play"|"pause"},
    {type:"control", action:"set_speed", speed} or
    {type:"focus", body_name}: the discriminator field is type and the
    focus target field is body_name. *)
Theorem C2_commands_sent (c : Client) (id : nat) (ws : WebSocket) :
  wsRef c = Some id -> nth_error (sockets c) id = Some ws -> readyState ws = OPEN ->
  (forall fields,
      simulationState c = VObj fields ->
      exists c',
        handlePlayPause c = Ok c'
        /\ nth_error (sockets c') id
           = Some (mkSocket OPEN
                     (sent ws ++
                      [Some (JObj [ ("type", JStr "control");
                                    ("action",
                                     JStr (if truthy (field "is_playing" fields)
                                           then "pause" else "play")) ])])))
  /\ (forall q,
         exists c',
           handleSpeedChange c (Fin q) = Ok c'
           /\ nth_error (sockets c') id
              = Some (mkSocket OPEN
                        (sent ws ++
                         [Some (JObj [ ("type", JStr "control");
                                       ("action", JStr "set_speed");
                                       ("speed", JNum q) ])])))
  /\ (forall bodyName,
         exists c',
           handleBodyClick c bodyName = Ok c'
           /\ nth_error (sockets c') id
              = Some (mkSocket OPEN
                        (sent ws ++
                         [Some (JObj [ ("type", JStr "focus");
                                       ("body_name", JStr bodyName) ])]))).
Proof.
  intros Hr Hs Ho. split; [| split].
  - intros fields Hst. unfold handlePlayPause. rewrite Hst, get_field.
    cbn [bind]. rewrite (sendCommand_open c _ id ws Hr Hs Ho).
    eexists. split; [reflexivity |]. cbn [bind fetch sockets setSockets].
    rewrite (nth_error_store id ws _ (sockets c) Hs).
    destruct (truthy (field "is_playing" fields)); reflexivity.
  - intros q. unfold handleSpeedChange.
    rewrite (sendCommand_open c _ id ws Hr Hs Ho).
    eexists. split; [reflexivity |]. cbn [bind fetch sockets setSockets].
    rewrite (nth_error_store id ws _ (sockets c) Hs). reflexivity.
  - intros bodyName. unfold handleBodyClick.
    rewrite (sendCommand_open (setSelectedBody c (VStr (toLowerCase bodyName)))
               _ id ws Hr Hs Ho).
    eexists. split; [reflexivity |].
    cbn [bind fetch sockets setSockets setSelectedBody].
    rewrite (nth_error_store id ws _ (sockets c) Hs). reflexivity.
Qed.

Lemma C2_commands_sent_witness :
  exists c',
    handleSpeedChange client_open (Fin 1000) = Ok c'
    /\ nth_error (sockets c') 0
       = Some (mkSocket OPEN
                 [Some (JObj [ ("type", JStr "control");
                               ("action", JStr "set_speed");
                               ("speed", JNum 1000) ])]).
Proof.
  destruct (C2_commands_sent client_open 0 (mkSocket OPEN []) eq_refl eq_refl eq_refl)
    as [_ [Hspeed _]].
  exact (Hspeed 1000%Q).
Defined.

Lemma C9_send_only_when_open_witness :
  sendCommand client_open (speed_command (Fin 10))
  = Ok (setSockets client_open (Some 0%nat)
          [mkSocket OPEN [JSON_stringify (speed_command (Fin 10))]])
  /\ sendCommand (mounted "2024-01-01T00:00:00Z") (speed_command (Fin 10))
     = Ok (mounted "2024-01-01T00:00:00Z").
Proof.
  destruct (C9_send_only_when_open client_open
              (UseWebSocket.mkHook false VNull None) (speed_command (Fin 10)))
    as [Hopen _].
  destruct (C9_send_only_when_open (mounted "2024-01-01T00:00:00Z")
              (UseWebSocket.mkHook false VNull None) (speed_command (Fin 10)))
    as [_ [Hclosed _]].
  split.
  - exact (Hopen 0%nat (mkSocket OPEN []) eq_refl eq_refl eq_refl).
  - apply Hclosed. intros id ws Hr Hs.
    injection Hr as <-. injection Hs as <-. discriminate.
Defined.

(** *** Reconnection *)

Lemma alive_store (id : nat) (ws ws' : WebSocket) (heap : list WebSocket) :
  nth_error heap id = Some ws ->
  (list_sum (map alive (store id ws' heap)) + alive ws
   = list_sum (map alive heap) + alive ws')%nat.
Proof.
  revert id; induction heap as [| w rest IH]; intros [| id] H; simpl in *;
    try discriminate.
  - injection H as ->. lia.
  - specialize (IH id H). lia.
Qed.

Lemma alive_app (heap : list WebSocket) (ws : WebSocket) :
  list_sum (map alive (heap ++ [ws])) = (list_sum (map alive heap) + alive ws)%nat.
Proof.
  induction heap as [| w rest IH]; simpl; [lia | rewrite IH; lia].
Qed.

Lemma length_remove_nth {A : Type} (k : nat) (l : list A) (x : A) :
  nth_error l k = Some x -> S (List.length (remove_nth k l)) = List.length l.
Proof.
  revert k; induction l as [| y rest IH]; intros [| k] H; simpl in *;
    try discriminate; auto.
Qed.

(** Every event of the runtime keeps the number of attempts under way. *)
Lemma dispatch_keeps_attempts (c c' : Client) (e : event) :
  dispatch c e = Some c' -> attempts c' = attempts c.
Proof.
  destruct e as [id | id parsed | id | id | k |]; simpl; intros H.
  - destruct (nth_error (sockets c) id) as [ws |] eqn:Hs; [| discriminate].
    destruct (readyState ws =? CONNECTING) eqn:E; [| discriminate].
    injection H as <-. apply Z.eqb_eq in E.
    unfold attempts, ws_onopen, set_readyState. rewrite Hs. simpl.
    pose proof (alive_store id ws (mkSocket OPEN (sent ws)) _ Hs) as A.
    assert (A1 : alive ws = 1%nat) by (unfold alive; rewrite E; reflexivity).
    assert (A2 : alive (mkSocket OPEN (sent ws)) = 1%nat) by reflexivity.
    lia.
  - destruct (nth_error (sockets c) id) as [ws |]; [| discriminate].
    destruct (readyState ws =? OPEN); [| discriminate].
    injection H as <-. unfold ws_onmessage.
    destruct parsed as [message | e]; simpl; [| reflexivity].
    destruct (get message "type") as [ty | e]; simpl; [| reflexivity].
    destruct (strict_eq_str ty "state_update").
    + destruct (get message "data"); reflexivity.
    + destruct (strict_eq_str ty "body_info"); [| reflexivity].
      destruct (get message "data"); reflexivity.
  - destruct (nth_error (sockets c) id) as [ws |]; [| discriminate].
    destruct (readyState ws =? CLOSED); [discriminate |].
    injection H as <-. reflexivity.
  - destruct (nth_error (sockets c) id) as [ws |] eqn:Hs; [| discriminate].
    destruct (readyState ws =? CLOSED) eqn:E; [discriminate |].
    injection H as <-.
    unfold attempts, ws_onclose, set_readyState. rewrite Hs. simpl.
    pose proof (alive_store id ws (mkSocket CLOSED (sent ws)) _ Hs) as A.
    assert (A1 : alive ws = 1%nat) by (unfold alive; rewrite E; reflexivity).
    assert (A2 : alive (mkSocket CLOSED (sent ws)) = 0%nat) by reflexivity.
    rewrite length_app. simpl. lia.
  - destruct (nth_error (timers c) k) as [[d cb] |] eqn:Ht; [| discriminate].
    destruct cb. injection H as <-.
    unfold attempts, connectWebSocket. simpl.
    rewrite alive_app. pose proof (length_remove_nth k _ _ Ht) as L.
    assert (A2 : alive (mkSocket CONNECTING []) = 1%nat) by reflexivity.
    lia.
  - injection H as <-. unfold attempts, cleanup.
    destruct (wsRef c) as [id |]; [| reflexivity].
    destruct (nth_error (sockets c) id) as [ws |] eqn:Hs; [| reflexivity].
    simpl. pose proof (alive_store id ws (close ws) _ Hs) as A.
    assert (alive (close ws) = alive ws).
    { unfold close, alive.
      destruct (readyState ws =? CLOSING) eqn:E1; simpl; [reflexivity |].
      destruct (readyState ws =? CLOSED) eqn:E2; simpl; [rewrite E2 |]; reflexivity. }
    lia.
Qed.

Lemma run_keeps_attempts (es : list event) (c c' : Client) :
  run c es = Some c' -> attempts c' = attempts c.
Proof.
  revert c; induction es as [| e rest IH]; simpl; intros c H.
  - injection H as <-. reflexivity.
  - destruct (dispatch c e) as [c1 |] eqn:D; [| discriminate].
    rewrite (IH c1 H). exact (dispatch_keeps_attempts c c1 e D).
Qed.

(** C10: the close event of any engine socket sets the connected flag to
    false and schedules connectWebSocket 3000 ms later; from then on, in
    every later state, a reconnection timer is pending or a socket created
    by one is still alive. *)
Theorem C10_close_schedules_reconnect (c : Client) (id : nat) (ws : WebSocket) :
  nth_error (sockets c) id = Some ws -> readyState ws <> CLOSED ->
  exists c',
    dispatch c (EvClose id) = Some c'
    /\ isConnected c' = false
    /\ timers c' = (timers c ++ [(3000, ConnectWebSocket)])%list
    /\ (forall es c'', run c' es = Some c'' -> (1 <= attempts c'')%nat).
Proof.
  intros Hs Hn. apply Z.eqb_neq in Hn.
  exists (ws_onclose (set_readyState c id CLOSED)).
  split; [simpl; rewrite Hs, Hn; reflexivity |].
  split; [reflexivity |].
  split.
  - unfold ws_onclose, set_readyState. rewrite Hs. reflexivity.
  - intros es c'' R. rewrite (run_keeps_attempts es _ c'' R).
    unfold attempts, ws_onclose, set_readyState. rewrite Hs. simpl.
    rewrite length_app. simpl. lia.
Qed.

Lemma C10_close_schedules_reconnect_witness :
  exists c',
    dispatch client_open (EvClose 0) = Some c'
    /\ isConnected c' = false
    /\ timers c' = [(3000, ConnectWebSocket)]
    /\ (forall es c'', run c' es = Some c'' -> (1 <= attempts c'')%nat).
Proof.
  apply (C10_close_schedules_reconnect client_open 0 (mkSocket OPEN [])).
  - reflexivity.
  - discriminate.
Defined.

(** ** SimulationInfo: the simulation-time display *)

Lemma trunc_comp (q1 q2 : Q) : (q1 == q2)%Q -> trunc q1 = trunc q2.
Proof.
  intros H. unfold trunc.
  assert (E : Qle_bool 0 q1 = Qle_bool 0 q2).
  { destruct (Qle_bool 0 q1) eqn:E1, (Qle_bool 0 q2) eqn:E2; try reflexivity.
    - apply Qle_bool_iff in E1. rewrite H in E1. apply Qle_bool_iff in E1. congruence.
    - apply Qle_bool_iff in E2. rewrite <- H in E2. apply Qle_bool_iff in E2. congruence. }
  rewrite E. destruct (Qle_bool 0 q2).
  - apply Qfloor_comp, H.
  - apply Qceiling_comp, H.
Qed.

Lemma trunc_monotone (q1 q2 : Q) : (q1 <= q2)%Q -> trunc q1 <= trunc q2.
Proof.
  intros H. unfold trunc.
  destruct (Qle_bool 0 q1) eqn:E1, (Qle_bool 0 q2) eqn:E2.
  - apply Qfloor_resp_le, H.
  - apply Qle_bool_iff in E1. exfalso.
    assert (L : (0 <= q2)%Q) by (eapply Qle_trans; eassumption).
    apply Qle_bool_iff in L. congruence.
  - apply Qle_bool_iff in E2.
    assert (L1 : ~ (0 <= q1)%Q) by (intros L; apply Qle_bool_iff in L; congruence).
    apply Qnot_le_lt in L1.
    assert (C : Qceiling q1 <= 0).
    { change 0 with (Qceiling 0). apply Qceiling_resp_le, Qlt_le_weak, L1. }
    assert (F : 0 <= Qfloor q2).
    { change 0 with (Qfloor 0). apply Qfloor_resp_le, E2. }
    lia.
  - apply Qceiling_resp_le, H.
Qed.

Lemma trunc_strict (q1 q2 : Q) :
  (0 <= q1)%Q -> (q1 + 1 <= q2)%Q -> trunc q1 < trunc q2.
Proof.
  intros H0 H. unfold trunc.
  assert (H2 : (0 <= q2)%Q).
  { apply Qle_trans with (q1 + 1)%Q; [| exact H].
    apply Qle_trans with q1; [exact H0 |].
    rewrite <- (Qplus_0_r q1) at 1. apply Qplus_le_r. discriminate. }
  apply Qle_bool_iff in H0. apply Qle_bool_iff in H2. rewrite H0, H2.
  assert (F : Qfloor (q1 + 1) <= Qfloor q2) by (apply Qfloor_resp_le, H).
  assert (G : Qfloor (q1 + 1) = Qfloor q1 + 1).
  { unfold Qfloor, Qplus. destruct q1 as [n d]. simpl.
    rewrite Z.mul_1_r, Pos.mul_1_r.
    replace (n + Z.pos d) with (n + 1 * Z.pos d) by lia.
    rewrite Z.div_add by discriminate. reflexivity. }
  lia.
Qed.

Lemma whole_minute_fields (m : Z) :
  let t := m * msPerMinute in
  Day t * msPerDay + (HourFromTime t * msPerHour + MinFromTime t * msPerMinute) = t
  /\ SecFromTime t = 0 /\ msFromTime t = 0.
Proof.
  unfold Day, HourFromTime, MinFromTime, SecFromTime, msFromTime,
    msPerDay, msPerHour, msPerMinute, msPerSecond.
  cbv zeta. Z.div_mod_to_equations. lia.
Qed.

Lemma displayed_instant_fixed_offset (tz : Z -> bool -> Z) (k : Z) (q : Q) :
  (forall t b, tz t b = k * msPerMinute) ->
  Z.abs (EPOCH_MS + 1000 * trunc q) <= 8640000000000000 ->
  ControlPanel.displayed_instant tz (Fin q) = Some (EPOCH_MS + 1000 * trunc q).
Proof.
  intros Htz Hr. unfold ControlPanel.displayed_instant.
  change (Date_UTC 2024 0 1) with (Some EPOCH_MS).
  unfold setSeconds, getSeconds, LocalTime, UTC. rewrite !Htz.
  replace (EPOCH_MS + k * msPerMinute) with ((28401120 + k) * msPerMinute)
    by (unfold EPOCH_MS, msPerMinute; lia).
  destruct (whole_minute_fields (28401120 + k)) as [Hd [Hs Hm]].
  cbv zeta in Hd, Hs, Hm. rewrite Hs, Hm.
  unfold num_add, MakeTime, MakeDate.
  rewrite (trunc_comp (inject_Z 0 + q) q) by apply Qplus_0_l.
  unfold TimeClip. rewrite !Htz.
  replace (Day ((28401120 + k) * msPerMinute) * msPerDay +
           (HourFromTime ((28401120 + k) * msPerMinute) * msPerHour +
            MinFromTime ((28401120 + k) * msPerMinute) * msPerMinute +
            trunc q * msPerSecond + 0) - k * msPerMinute)
    with (EPOCH_MS + 1000 * trunc q)
    by (unfold EPOCH_MS, msPerMinute, msPerSecond in *; lia).
  apply Z.leb_le in Hr. rewrite Hr. reflexivity.
Qed.

(** Half a second after the epoch the display still shows the epoch itself:
    setSeconds keeps whole seconds only. *)
Lemma fraction_of_a_second_is_dropped :
  (0 < 1 # 2)%Q
  /\ ControlPanel.formatSimTime utc_host (Fin 0) = Ok "2024-01-01 00:00:00"
  /\ ControlPanel.formatSimTime utc_host (Fin (1 # 2)) = Ok "2024-01-01 00:00:00"
  /\ ControlPanel.displayed_instant utc_host (Fin (1 # 2)) = Some EPOCH_MS
  /\ ControlPanel.displayed_instant utc_host (Fin (1 # 2)) <> Some (EPOCH_MS + 500).
Proof.
  repeat split; try reflexivity. discriminate.
Qed.

(** C8: on a host that observes daylight saving time the simulation-time
    display is not the epoch plus t seconds: for t = 15552000 (180 days),
    the epoch plus t is 2024-06-29T00:00:00 UTC, which a host in UTC does
    display, but a host on US Eastern time displays 2024-06-28 23:00:00,
    because the seconds are added in local time to an epoch built and
    printed in UTC. *)
Theorem C8_display_is_an_hour_off_on_a_daylight_saving_host :
  ControlPanel.formatSimTime eastern_host (Fin (inject_Z (180 * 86400)))
  = Ok "2024-06-28 23:00:00"
  /\ ControlPanel.display_of_instant (Some (EPOCH_MS + 1000 * (180 * 86400)))
     = Ok "2024-06-29 00:00:00"
  /\ ControlPanel.formatSimTime utc_host (Fin (inject_Z (180 * 86400)))
     = Ok "2024-06-29 00:00:00".
Proof. repeat split; reflexivity. Qed.

(** On a host whose local time zone keeps a constant offset of whole
    minutes, the simulation-time display renders the calendar instant
    2024-01-01T00:00:00 UTC plus t truncated to whole seconds; t = 0 maps to
    the epoch itself, the displayed instant never decreases when t grows,
    and it strictly increases between timestamps t >= 0 that are at least
    one second apart. *)
Lemma display_on_a_fixed_offset_host (tz : Z -> bool -> Z) (k : Z) :
  (forall t b, tz t b = k * msPerMinute) ->
  ControlPanel.formatSimTime tz (Fin 0) = Ok "2024-01-01 00:00:00"
  /\ (forall q,
         Z.abs (EPOCH_MS + 1000 * trunc q) <= 8640000000000000 ->
         ControlPanel.displayed_instant tz (Fin q) = Some (EPOCH_MS + 1000 * trunc q)
         /\ ControlPanel.formatSimTime tz (Fin q)
            = ControlPanel.display_of_instant (Some (EPOCH_MS + 1000 * trunc q)))
  /\ (forall q1 q2, (q1 <= q2)%Q -> trunc q1 <= trunc q2)
  /\ (forall q1 q2, (0 <= q1)%Q -> (q1 + 1 <= q2)%Q -> trunc q1 < trunc q2).
Proof.
  intros Htz.
  assert (D : forall q,
             Z.abs (EPOCH_MS + 1000 * trunc q) <= 8640000000000000 ->
             ControlPanel.displayed_instant tz (Fin q) = Some (EPOCH_MS + 1000 * trunc q)
             /\ ControlPanel.formatSimTime tz (Fin q)
                = ControlPanel.display_of_instant (Some (EPOCH_MS + 1000 * trunc q))).
  { intros q Hr.
    pose proof (displayed_instant_fixed_offset tz k q Htz Hr) as E.
    split; [exact E |].
    change (ControlPanel.formatSimTime tz (Fin q))
      with (ControlPanel.display_of_instant (ControlPanel.displayed_instant tz (Fin q))).
    rewrite E. reflexivity. }
  split; [| split; [exact D | split; [exact trunc_monotone | exact trunc_strict]]].
  destruct (D 0%Q) as [_ F]; [vm_compute; discriminate |].
  rewrite F. reflexivity.
Qed.

Lemma display_on_a_fixed_offset_host_example :
  ControlPanel.formatSimTime utc_host (Fin 0) = Ok "2024-01-01 00:00:00"
  /\ ControlPanel.displayed_instant utc_host (Fin (86400 # 1))
     = Some (EPOCH_MS + 1000 * trunc (86400 # 1))
  /\ trunc (86400 # 1) < trunc (86401 # 1).
Proof.
  destruct (display_on_a_fixed_offset_host utc_host 0) as [H0 [Hd [_ Hs]]].
  - intros t b. reflexivity.
  - split; [exact H0 |]. split.
    + apply Hd. vm_compute. discriminate.
    + apply Hs; vm_compute; discriminate.
Defined.

(* ===================================================================== *)
(** * Further properties of the client *)
(* ===================================================================== *)

(** ** Incoming messages *)

Lemma message_frame (c : Client) (parsed : result value) :
  isConnected (ws_onmessage c parsed) = isConnected c
  /\ wsRef (ws_onmessage c parsed) = wsRef c
  /\ sockets (ws_onmessage c parsed) = sockets c
  /\ timers (ws_onmessage c parsed) = timers c
  /\ fetches (ws_onmessage c parsed) = fetches c
  /\ selectedBody (ws_onmessage c parsed) = selectedBody c.
Proof.
  unfold ws_onmessage.
  destruct parsed as [message | e]; simpl; [| tauto].
  destruct (get message "type") as [ty | e]; simpl; [| tauto].
  destruct (strict_eq_str ty "state_update").
  - destruct (get message "data"); simpl; tauto.
  - destruct (strict_eq_str ty "body_info"); [| simpl; tauto].
    destruct (get message "data"); simpl; tauto.
Qed.

(** X1: an incoming message never touches the connection: whatever arrives,
    the connected flag, the sockets, the pending timers, the REST requests
    issued and the selected body stay as they were; and a message that
    failed to parse, is null or undefined, or carries a type other than
    state_update and body_info leaves the whole client unchanged. *)
Theorem X1_message_keeps_connection (c : Client) (parsed : result value) :
  let c' := ws_onmessage c parsed in
  (isConnected c' = isConnected c /\ wsRef c' = wsRef c /\ sockets c' = sockets c
   /\ timers c' = timers c /\ fetches c' = fetches c
   /\ selectedBody c' = selectedBody c)
  /\ (forall e, parsed = Throw e -> c' = c)
  /\ (parsed = Ok VNull \/ parsed = Ok VUndefined -> c' = c)
  /\ (forall fields,
         parsed = Ok (VObj fields) ->
         strict_eq_str (field "type" fields) "state_update" = false ->
         strict_eq_str (field "type" fields) "body_info" = false ->
         c' = c).
Proof.
  cbv zeta. split; [| split; [| split]].
  - exact (message_frame c parsed).
  - intros e ->. reflexivity.
  - intros [-> | ->]; reflexivity.
  - intros fields -> H1 H2. unfold ws_onmessage. cbn [bind]. rewrite get_field.
    cbn [bind]. rewrite H1, H2. reflexivity.
Qed.

Lemma X1_message_keeps_connection_witness :
  ws_onmessage client_open (Ok (VObj [("type", VStr "status"); ("message", VStr "ok")]))
  = client_open
  /\ ws_onmessage client_open (Throw SyntaxError) = client_open.
Proof.
  destruct (X1_message_keeps_connection client_open
              (Ok (VObj [("type", VStr "status"); ("message", VStr "ok")])))
    as [_ [_ [_ H]]].
  destruct (X1_message_keeps_connection client_open (Throw SyntaxError))
    as [_ [He _]].
  split.
  - exact (H _ eq_refl eq_refl eq_refl).
  - exact (He SyntaxError eq_refl).
Defined.

(** X2: state updates are not merged: the latest snapshot replaces the
    previous one wholesale, so after two updates the client is exactly as
    if only the second had arrived, and a field the second snapshot lacks
    reads as undefined even when the first carried it; a body_info message
    and a state update act on separate parts of the client, in either
    order. *)
Theorem X2_latest_snapshot_wins (c : Client) (d1 info : value)
  (fields2 : list (string * value)) :
  let c2 := ws_onmessage (ws_onmessage c (state_update d1)) (state_update (VObj fields2)) in
  c2 = ws_onmessage c (state_update (VObj fields2))
  /\ (forall k, lookup k fields2 = None -> get (simulationState c2) k = Ok VUndefined)
  /\ (forall k v, lookup k fields2 = Some v -> get (simulationState c2) k = Ok v)
  /\ ws_onmessage
       (ws_onmessage c (state_update d1))
       (Ok (VObj [("type", VStr "body_info"); ("data", info)]))
     = ws_onmessage
         (ws_onmessage c (Ok (VObj [("type", VStr "body_info"); ("data", info)])))
         (state_update d1).
Proof.
  cbv zeta. split; [reflexivity | split; [| split; [| reflexivity]]].
  - intros k Hk. simpl. rewrite Hk. reflexivity.
  - intros k v Hk. simpl. rewrite Hk. reflexivity.
Qed.

Lemma X2_latest_snapshot_wins_witness :
  get (simulationState
         (ws_onmessage
            (ws_onmessage client_open (state_update (VObj [("timestamp", num 5)])))
            (state_update (VObj [("is_playing", VBool true)]))))
      "timestamp"
  = Ok VUndefined.
Proof.
  destruct (X2_latest_snapshot_wins client_open (VObj [("timestamp", num 5)]) VNull
              [("is_playing", VBool true)]) as [_ [H _]].
  apply H. reflexivity.
Defined.

(** X3: a state_update message whose data field is missing or null is
    stored as the simulation state, and the next render of the view throws
    a TypeError. *)
Theorem X3_update_without_data_breaks_render (c : Client) (fields : list (string * value)) :
  field "type" fields = VStr "state_update" ->
  field "data" fields = VUndefined \/ field "data" fields = VNull ->
  render (ws_onmessage c (Ok (VObj fields))) = Throw TypeError.
Proof.
  intros Ht Hd. unfold ws_onmessage. cbn [bind]. rewrite get_field. cbn [bind].
  rewrite Ht. simpl strict_eq_str. cbn iota.
  rewrite get_field. cbn [bind].
  destruct Hd as [-> | ->]; reflexivity.
Qed.

Lemma X3_update_without_data_breaks_render_witness :
  render (ws_onmessage client_open (Ok (VObj [("type", VStr "state_update")])))
  = Throw TypeError.
Proof.
  apply (X3_update_without_data_breaks_render client_open
           [("type", VStr "state_update")]).
  - reflexivity.
  - left. reflexivity.
Defined.

(** ** Commands while the socket is not open *)

Lemma sendCommand_returns (c : Client) (command : value) :
  exists c1,
    sendCommand c command = Ok c1
    /\ fetches c1 = fetches c /\ simulationState c1 = simulationState c
    /\ isConnected c1 = isConnected c /\ timers c1 = timers c
    /\ wsRef c1 = wsRef c /\ selectedBody c1 = selectedBody c
    /\ bodyInfo c1 = bodyInfo c.
Proof.
  unfold sendCommand.
  destruct (wsRef c) as [id |] eqn:Hr; [| exists c; repeat split; auto].
  destruct (nth_error (sockets c) id) as [ws |] eqn:Hs; [| exists c; repeat split; auto].
  destruct (readyState ws =? OPEN) eqn:E; [| exists c; repeat split; auto].
  apply Z.eqb_eq in E. unfold send. rewrite E. simpl.
  eexists. split; [reflexivity |]. simpl. repeat split; auto.
Qed.

(** X4: every play/pause and speed-change interaction returns normally and
    issues exactly one REST request, whatever the state of the socket:
    {action} or {action:"set_speed", speed} to /api/control/time; a click on
    a body whose name is a string does the same with {body_name} to
    /api/focus and, for an ASCII name, stores the lower-cased name as the
    selected body; none of these touches the connected flag or the timers.
    A click on a body whose name is not a string throws a TypeError before
    anything is stored or sent. *)
Theorem X4_rest_request_always_issued (c : Client) :
  (forall fields,
      simulationState c = VObj fields ->
      exists c',
        handlePlayPause c = Ok c'
        /\ fetches c'
           = (fetches c ++
              [("http://localhost:8000/api/control/time",
                Some (JObj [("action",
                             JStr (if truthy (field "is_playing" fields)
                                   then "pause" else "play"))]))])%list
        /\ isConnected c' = isConnected c /\ timers c' = timers c)
  /\ (forall q,
         exists c',
           handleSpeedChange c (Fin q) = Ok c'
           /\ fetches c'
              = (fetches c ++
                 [("http://localhost:8000/api/control/time",
                   Some (JObj [("action", JStr "set_speed"); ("speed", JNum q)]))])%list
           /\ isConnected c' = isConnected c /\ timers c' = timers c)
  /\ (forall bodyName,
         exists c',
           Connection.onBodyClick c (VStr bodyName) = Ok c'
           /\ fetches c'
              = (fetches c ++
                 [("http://localhost:8000/api/focus",
                   Some (JObj [("body_name", JStr bodyName)]))])%list
           /\ isConnected c' = isConnected c /\ timers c' = timers c
           /\ (Connection.ascii_only bodyName = true ->
               selectedBody c' = VStr (toLowerCase bodyName)))
  /\ (forall name,
         (forall s, name <> VStr s) -> Connection.onBodyClick c name = Throw TypeError).
Proof.
  split; [| split; [| split]].
  - intros fields Hst. unfold handlePlayPause. rewrite Hst, get_field. cbn [bind].
    destruct (sendCommand_returns c
                (VObj [("type", VStr "control");
                       ("action", VStr (if truthy (field "is_playing" fields)
                                        then "pause" else "play"))]))
      as [c1 [E [Hf [_ [Hc [Ht _]]]]]].
    rewrite E. cbn [bind]. eexists. split; [reflexivity |].
    simpl. rewrite Hf, Hc, Ht.
    destruct (truthy (field "is_playing" fields)); auto.
  - intros q. unfold handleSpeedChange.
    destruct (sendCommand_returns c (speed_command (Fin q)))
      as [c1 [E [Hf [_ [Hc [Ht _]]]]]].
    rewrite E. cbn [bind]. eexists. split; [reflexivity |].
    simpl. rewrite Hf, Hc, Ht. auto.
  - intros bodyName. unfold Connection.onBodyClick, handleBodyClick.
    destruct (sendCommand_returns (setSelectedBody c (VStr (toLowerCase bodyName)))
                (focus_command bodyName))
      as [c1 [E [Hf [_ [Hc [Ht [_ [Hb _]]]]]]]].
    rewrite E. cbn [bind]. eexists. split; [reflexivity |].
    simpl. rewrite Hf, Hc, Ht, Hb. auto.
  - intros name Hn. destruct name; try reflexivity.
    exfalso. exact (Hn s eq_refl).
Qed.

Lemma X4_rest_request_always_issued_witness :
  (exists c',
      handlePlayPause (mounted "2024-01-01T00:00:00Z") = Ok c'
      /\ fetches c'
         = [("http://localhost:8000/api/control/time",
             Some (JObj [("action", JStr "play")]))]
      /\ isConnected c' = false /\ timers c' = [])
  /\ Connection.onBodyClick (mounted "2024-01-01T00:00:00Z") VUndefined
     = Throw TypeError.
Proof.
  destruct (X4_rest_request_always_issued (mounted "2024-01-01T00:00:00Z"))
    as [H [_ [_ Hn]]].
  split.
  - exact (H _ eq_refl).
  - apply Hn. intros s. discriminate.
Defined.

(** X5: while the socket is not open (connecting, closing, closed, or none
    yet), a play/pause, speed-change or body-click interaction puts nothing
    on any socket: the command reaches the server through REST only. *)
Theorem X5_nothing_on_the_socket_unless_open (c : Client) :
  (forall id ws, wsRef c = Some id -> nth_error (sockets c) id = Some ws ->
                 readyState ws <> OPEN) ->
  (forall fields c',
      simulationState c = VObj fields -> handlePlayPause c = Ok c' ->
      sockets c' = sockets c)
  /\ (forall speed c', handleSpeedChange c speed = Ok c' -> sockets c' = sockets c)
  /\ (forall bodyName c', handleBodyClick c bodyName = Ok c' -> sockets c' = sockets c).
Proof.
  intros H. split; [| split].
  - intros fields c' Hst. unfold handlePlayPause. rewrite Hst, get_field. cbn [bind].
    rewrite (sendCommand_not_open c _ H). cbn [bind]. intros E.
    injection E as <-. reflexivity.
  - intros speed c'. unfold handleSpeedChange.
    rewrite (sendCommand_not_open c _ H). cbn [bind]. intros E.
    injection E as <-. reflexivity.
  - intros bodyName c'. unfold handleBodyClick.
    rewrite (sendCommand_not_open (setSelectedBody c (VStr (toLowerCase bodyName))) _ H).
    cbn [bind]. intros E. injection E as <-. reflexivity.
Qed.

Lemma X5_nothing_on_the_socket_unless_open_witness :
  exists c',
    handleSpeedChange (mounted "2024-01-01T00:00:00Z") (Fin 10) = Ok c'
    /\ sockets c' = [mkSocket CONNECTING []].
Proof.
  destruct (X5_nothing_on_the_socket_unless_open (mounted "2024-01-01T00:00:00Z"))
    as [_ [H _]].
  - intros id ws Hr Hs. injection Hr as <-. injection Hs as <-. discriminate.
  - eexists. split; [reflexivity |]. apply (H (Fin 10)). reflexivity.
Defined.

(** ** The shape of the connection *)

Import Connection.


Lemma store_last (old : list WebSocket) (last ws' : WebSocket) :
  store (List.length old) ws' (old ++ [last]) = (old ++ [ws'])%list.
Proof.
  induction old as [| w rest IH]; simpl; [reflexivity | rewrite IH; reflexivity].
Qed.

Lemma nth_error_last (old : list WebSocket) (last : WebSocket) :
  nth_error (old ++ [last]) (List.length old) = Some last.
Proof.
  induction old as [| w rest IH]; simpl; auto.
Qed.

Lemma only_last_not_closed (old : list WebSocket) (last ws : WebSocket) (id : nat) :
  Forall closed old ->
  nth_error (old ++ [last]) id = Some ws ->
  readyState ws <> CLOSED ->
  id = List.length old /\ ws = last.
Proof.
  intros Hold. revert id. induction Hold as [| w rest Hw Hrest IH]; intros id Hn Hc.
  - destruct id as [| id]; simpl in Hn.
    + injection Hn as <-. auto.
    + destruct id; discriminate.
  - destruct id as [| id]; simpl in Hn.
    + injection Hn as <-. contradiction.
    + destruct (IH id Hn Hc) as [-> ->]. auto.
Qed.

Lemma well_connected_mounted (now : string) : well_connected (mounted now).
Proof.
  exists [], (mkSocket CONNECTING []). simpl. repeat split; auto.
Qed.

Lemma well_connected_dispatch (c c' : Client) (e : event) :
  well_connected c -> dispatch c e = Some c' -> well_connected c'.
Proof.
  intros [old [last [Hs [Hr [Hold Hst]]]]].
  destruct e as [id | id parsed | id | id | k |]; simpl; intros H.
  - (* open *)
    destruct (nth_error (sockets c) id) as [ws |] eqn:Hn; [| discriminate].
    destruct (readyState ws =? CONNECTING) eqn:E; [| discriminate].
    injection H as <-. apply Z.eqb_eq in E. rewrite Hs in Hn.
    destruct (only_last_not_closed old last ws id Hold Hn) as [-> ->];
      [rewrite E; discriminate |].
    exists old, (mkSocket OPEN (sent last)).
    unfold ws_onopen, set_readyState. rewrite Hs, nth_error_last. simpl.
    rewrite store_last. repeat split; auto.
    right. right. split; [left; reflexivity |].
    destruct Hst as [[Hc _] | [[_ [Ht _]] | [[Ho | Ho] _]]];
      try (rewrite E in *; discriminate). exact Ht.
  - (* message *)
    destruct (nth_error (sockets c) id) as [ws |]; [| discriminate].
    destruct (readyState ws =? OPEN); [| discriminate].
    injection H as <-.
    destruct (message_frame c parsed) as [Hi [Hw [Hk [Ht _]]]].
    exists old, last.
    rewrite Hi, Hw, Hk, Ht. repeat split; auto.
  - (* error *)
    destruct (nth_error (sockets c) id) as [ws |]; [| discriminate].
    destruct (readyState ws =? CLOSED); [discriminate |].
    injection H as <-. exists old, last. repeat split; auto.
  - (* close *)
    destruct (nth_error (sockets c) id) as [ws |] eqn:Hn; [| discriminate].
    destruct (readyState ws =? CLOSED) eqn:E; [discriminate |].
    injection H as <-. apply Z.eqb_neq in E. rewrite Hs in Hn.
    destruct (only_last_not_closed old last ws id Hold Hn E) as [-> ->].
    exists old, (mkSocket CLOSED (sent last)).
    unfold ws_onclose, set_readyState. rewrite Hs, nth_error_last. simpl.
    rewrite store_last. repeat split; auto.
    left. repeat split; auto.
    destruct Hst as [[Hc _] | [[_ [Ht _]] | [_ Ht]]];
      [contradiction | rewrite Ht; reflexivity | rewrite Ht; reflexivity].
  - (* timer *)
    destruct (nth_error (timers c) k) as [[d cb] |] eqn:Hk; [| discriminate].
    destruct cb. injection H as <-.
    destruct Hst as [[Hc [Ht Hi]] | [[_ [Ht _]] | [_ Ht]]];
      try (rewrite Ht in Hk; destruct k; discriminate).
    exists (old ++ [last])%list, (mkSocket CONNECTING []).
    unfold connectWebSocket. simpl. rewrite Hs. repeat split; auto.
    + apply Forall_app. split; [exact Hold | constructor; [exact Hc | constructor]].
    + right. left. repeat split; auto.
      rewrite Ht in *. destruct k as [| k]; [reflexivity |].
      destruct k; discriminate.
  - (* unmount *)
    injection H as <-. unfold cleanup. rewrite Hr, Hs, nth_error_last.
    exists old, (close last). simpl. rewrite store_last. repeat split; auto.
    unfold close.
    destruct Hst as [[Hc [Ht Hi]] | [[Hc [Ht Hi]] | [[Ho | Ho] Ht]]].
    + rewrite Hc. simpl. left. auto.
    + rewrite Hc. simpl. right. right. auto.
    + rewrite Ho. simpl. right. right. auto.
    + rewrite Ho. simpl. right. right. auto.
Qed.

(** X6: in every state the mounted client can reach, the sockets are the
    closed ones of earlier attempts followed by the current one, which is
    the one wsRef.current designates; at most one socket is not closed; a
    single reconnection timer is pending exactly while the current socket is
    closed; and the connected flag is up only while the current socket is
    open or closing. *)
Theorem X6_one_connection_at_a_time (now : string) (es : list event) (c : Client) :
  run (mounted now) es = Some c ->
  well_connected c
  /\ attempts c = 1%nat
  /\ (isConnected c = true ->
      exists id ws, wsRef c = Some id /\ nth_error (sockets c) id = Some ws
                    /\ (readyState ws = OPEN \/ readyState ws = CLOSING)).
Proof.
  intros R.
  assert (W : well_connected c).
  { revert R. generalize (well_connected_mounted now).
    generalize (mounted now). induction es as [| e rest IH]; simpl; intros c0 W0 R.
    - injection R as <-. exact W0.
    - destruct (dispatch c0 e) as [c1 |] eqn:D; [| discriminate].
      exact (IH c1 (well_connected_dispatch c0 c1 e W0 D) R). }
  split; [exact W | split].
  - rewrite (run_keeps_attempts es _ c R). reflexivity.
  - intros Hi. destruct W as [old [last [Hs [Hr [_ Hst]]]]].
    exists (List.length old), last. rewrite Hs, nth_error_last.
    repeat split; auto.
    destruct Hst as [[_ [_ Hf]] | [[_ [_ Hf]] | [Ho _]]]; [congruence | congruence | exact Ho].
Qed.

Lemma X6_one_connection_at_a_time_witness :
  well_connected client_open /\ attempts client_open = 1%nat.
Proof.
  destruct (X6_one_connection_at_a_time "2024-01-01T00:00:00Z" [EvOpen 0] client_open)
    as [W [A _]].
  - reflexivity.
  - split; [exact W | exact A].
Defined.



(** ** The generic hook *)

Import UseWebSocket HookRuntime.

Lemma hook_closed_stays (m m' : Mounted) (e : HookRuntime.event) (ws : WebSocket) :
  UseWebSocket.wsRef (hook m) = Some ws -> readyState ws = CLOSED ->
  UseWebSocket.isConnected (hook m) = false ->
  is_rerun e = false ->
  HookRuntime.dispatch m e = Some m' ->
  UseWebSocket.wsRef (hook m') = Some ws
  /\ UseWebSocket.isConnected (hook m') = false.
Proof.
  intros Hr Hc Hi Hn.
  destruct e as [| parsed | err | | k parsed | k err | k | | | message];
    simpl; rewrite ?Hr, ?Hc; simpl; try discriminate.
  - destruct (nth_error (stale m) k) as [w |]; [| discriminate].
    destruct (readyState w =? CLOSED); [discriminate |].
    intros H. injection H as <-. auto.
  - destruct (nth_error (stale m) k) as [w |]; [| discriminate].
    destruct (readyState w =? CLOSED); [discriminate |].
    intros H. injection H as <-. simpl. auto.
  - destruct (nth_error (stale m) k) as [w |]; [| discriminate].
    destruct (readyState w =? CLOSED); [discriminate |].
    intros H. injection H as <-. simpl. auto.
  - intros H. injection H as <-. unfold HookRuntime.cleanup. rewrite Hr.
    unfold close. rewrite Hc. simpl. auto.
  - unfold sendMessage. rewrite Hr, Hc. simpl. intros H. injection H as <-. auto.
Qed.

(** X8: the hook schedules no reconnection of its own: once the current
    socket has fired its close event then, as long as the effect does not
    run again (url and onMessage unchanged), whatever else happens (events
    of sockets replaced earlier, errors, cleanup, any number of sendMessage
    calls) the current socket stays closed with the frames it had sent, the
    hook keeps reporting disconnected and every sendMessage is discarded;
    a new socket appears only when the effect runs again, which stores a
    fresh connecting socket in wsRef.current. *)
Theorem X8_hook_reconnects_only_on_rerun (m m1 m2 : Mounted) (ws : WebSocket)
  (es : list HookRuntime.event) :
  UseWebSocket.wsRef (hook m) = Some ws ->
  HookRuntime.dispatch m HClose = Some m1 ->
  forallb (fun e => negb (is_rerun e)) es = true ->
  HookRuntime.run m1 es = Some m2 ->
  UseWebSocket.wsRef (hook m2) = Some (mkSocket CLOSED (sent ws))
  /\ UseWebSocket.isConnected (hook m2) = false
  /\ (forall message, sendMessage (hook m2) message = Ok (hook m2))
  /\ (exists m3,
         HookRuntime.dispatch m2 HRerun = Some m3
         /\ UseWebSocket.wsRef (hook m3) = Some (mkSocket CONNECTING [])
         /\ stale m3 = (stale m2 ++ [mkSocket CLOSED (sent ws)])%list).
Proof.
  intros Hr D Hes R. simpl in D. rewrite Hr in D.
  destruct (readyState ws =? CLOSED); [discriminate |].
  injection D as <-. unfold HookRuntime.onclose, with_readyState in R. rewrite Hr in R.
  simpl in R.
  assert (G : forall es m1 m2,
             UseWebSocket.wsRef (hook m1) = Some (mkSocket CLOSED (sent ws)) ->
             UseWebSocket.isConnected (hook m1) = false ->
             forallb (fun e => negb (is_rerun e)) es = true ->
             HookRuntime.run m1 es = Some m2 ->
             UseWebSocket.wsRef (hook m2) = Some (mkSocket CLOSED (sent ws))
             /\ UseWebSocket.isConnected (hook m2) = false).
  { clear. induction es as [| e rest IH]; simpl; intros m1 m2 Hw Hi Hes R.
    - injection R as <-. auto.
    - apply andb_true_iff in Hes. destruct Hes as [He Hrest].
      apply negb_true_iff in He.
      destruct (HookRuntime.dispatch m1 e) as [m' |] eqn:D; [| discriminate].
      destruct (hook_closed_stays m1 m' e _ Hw eq_refl Hi He D) as [Hw' Hi'].
      exact (IH m' m2 Hw' Hi' Hrest R). }
  apply G in R; [| reflexivity | reflexivity | exact Hes].
  destruct R as [Hw Hi].
  split; [exact Hw | split; [exact Hi | split]].
  - intros message. unfold sendMessage. rewrite Hw. reflexivity.
  - eexists. split; [reflexivity |]. unfold rerun. simpl. rewrite Hw.
    split; reflexivity.
Qed.

Lemma X8_hook_reconnects_only_on_rerun_witness :
  exists m2,
    HookRuntime.run
      (mkMounted (mkHook false VNull (Some (mkSocket CLOSED [Some JNull]))) [])
      [HSend (VStr "ping"); HCleanup; HSend (VStr "ping")] = Some m2
    /\ UseWebSocket.wsRef (hook m2) = Some (mkSocket CLOSED [Some JNull])
    /\ UseWebSocket.isConnected (hook m2) = false
    /\ (forall message, sendMessage (hook m2) message = Ok (hook m2))
    /\ (exists m3,
           HookRuntime.dispatch m2 HRerun = Some m3
           /\ UseWebSocket.wsRef (hook m3) = Some (mkSocket CONNECTING [])
           /\ stale m3 = (stale m2 ++ [mkSocket CLOSED [Some JNull]])%list).
Proof.
  eexists. split; [reflexivity |].
  apply (X8_hook_reconnects_only_on_rerun
           (mkMounted (mkHook true VNull (Some (mkSocket OPEN [Some JNull]))) [])
           (mkMounted (mkHook false VNull (Some (mkSocket CLOSED [Some JNull]))) [])
           _ (mkSocket OPEN [Some JNull])
           [HSend (VStr "ping"); HCleanup; HSend (VStr "ping")]);
    reflexivity.
Defined.

(** ** The scene *)

Import SolarSystem Scene.

Lemma mapM_length {A B : Type} (f : A -> result B) (l : list A) (r : list B) :
  mapM f l = Ok r -> List.length r = List.length l.
Proof.
  revert r; induction l as [| x rest IH]; simpl; intros r H.
  - injection H as <-. reflexivity.
  - destruct (f x) as [y | e]; simpl in H; [| discriminate].
    destruct (mapM f rest) as [ys | e]; simpl in H; [| discriminate].
    injection H as <-. simpl. rewrite (IH ys eq_refl). reflexivity.
Qed.

(** X9: a spacecraft is drawn only for a mission whose status is exactly
    "active" and whose current_position is truthy: a pending or completed
    mission is never drawn, whatever position it carries; and the scene
    keeps one slot per mission, in order. *)
Theorem X9_only_active_missions_are_drawn (m : list (string * value)) :
  (forall sc, spacecraft (VObj m) = Ok (Some sc) ->
              field "status" m = VStr "active"
              /\ truthy (field "current_position" m) = true)
  /\ (strict_eq_str (field "status" m) "active" = false -> spacecraft (VObj m) = Ok None)
  /\ (forall missions drawn,
         render_spacecraft (VArr missions) = Ok drawn ->
         List.length drawn = List.length missions).
Proof.
  split; [| split].
  - intros sc. unfold spacecraft. cbn [bind]. rewrite get_field. cbn [bind].
    destruct (field "status" m) as [| | | | s | |] eqn:Es; cbn [strict_eq_str];
      try (cbn; discriminate).
    destruct (String.eqb s "active") eqn:E; [| cbn; discriminate].
    apply String.eqb_eq in E. subst s. rewrite get_field. cbn [bind].
    destruct (truthy (field "current_position" m)); [auto | discriminate].
  - intros H. unfold spacecraft. cbn [bind]. rewrite get_field. cbn [bind]. rewrite H.
    reflexivity.
  - intros missions drawn. apply mapM_length.
Qed.

Lemma X9_only_active_missions_are_drawn_witness :
  spacecraft (VObj [ ("id", VStr "mission-2"); ("status", VStr "completed");
                     ("current_position", VArr [num 1; num 0; num 0]) ])
  = Ok None.
Proof.
  destruct (X9_only_active_missions_are_drawn
              [ ("id", VStr "mission-2"); ("status", VStr "completed");
                ("current_position", VArr [num 1; num 0; num 0]) ]) as [_ [H _]].
  apply H. reflexivity.
Defined.

Lemma line_points (samples : list value) (pts : list (list value)) :
  Forall2 positioned samples pts -> mapM line_point samples = Ok pts.
Proof.
  induction 1 as [| s p samples pts [fields [x [y [z [-> [Hp ->]]]]]] _ IH]; simpl.
  - reflexivity.
  - unfold line_point at 1. rewrite get_field. unfold field. rewrite Hp.
    simpl. rewrite IH. reflexivity.
Qed.

(** X10: a trajectory with fewer than two samples is not drawn; one with
    two or more samples is drawn as the line through the positions its
    samples carry under the field name [position], one point per sample in
    order; and rendering throws as soon as one sample object has no such
    field (for instance a sample that carries only position_au). *)
Theorem X10_trajectory_samples (samples : list value) :
  ((List.length samples <= 1)%nat -> trajectory_line samples = Ok None)
  /\ (forall pts,
         (2 <= List.length samples)%nat ->
         Forall2 positioned samples pts ->
         trajectory_line samples = Ok (Some pts))
  /\ (forall before fields after,
         samples = (before ++ VObj fields :: after)%list ->
         (2 <= List.length samples)%nat ->
         lookup "position" fields = None ->
         exists e, trajectory_line samples = Throw e).
Proof.
  split; [| split].
  - intros H. unfold trajectory_line.
    destruct (1 <? List.length samples)%nat eqn:E; [| reflexivity].
    apply Nat.ltb_lt in E. lia.
  - intros pts Hlen Hp. unfold trajectory_line.
    assert (E : (1 <? List.length samples)%nat = true) by (apply Nat.ltb_lt; lia).
    rewrite E, (line_points samples pts Hp). reflexivity.
  - intros before fields after -> Hlen Hp. unfold trajectory_line.
    assert (E : (1 <? List.length (before ++ VObj fields :: after))%nat = true)
      by (apply Nat.ltb_lt; lia).
    rewrite E. clear E Hlen.
    induction before as [| b rest IH]; simpl.
    + unfold line_point at 1. rewrite get_field. unfold field. rewrite Hp.
      simpl. eexists. reflexivity.
    + destruct (line_point b) as [y | e]; simpl; [| eexists; reflexivity].
      destruct IH as [e IH].
      destruct (mapM line_point (rest ++ VObj fields :: after)) as [ys | e'];
        simpl in *; [discriminate | eexists; reflexivity].
Qed.

Lemma X10_trajectory_samples_witness :
  trajectory_line
    [ VObj [("t", num 0); ("position", VArr [num 1; num 0; num 0])];
      VObj [("t", num 1); ("position", VArr [num 0; num 1; num 0])] ]
  = Ok (Some [[num 1; num 0; num 0]; [num 0; num 1; num 0]])
  /\ trajectory_line [VObj [("t", num 0); ("position", VArr [num 1; num 0; num 0])]]
     = Ok None
  /\ exists e,
       trajectory_line
         [ VObj [("t", num 0); ("position", VArr [num 1; num 0; num 0])];
           VObj [("t", num 1); ("position_au", VArr [num 1; num 0; num 0])] ]
       = Throw e.
Proof.
  split; [| split].
  - destruct (X10_trajectory_samples
                [ VObj [("t", num 0); ("position", VArr [num 1; num 0; num 0])];
                  VObj [("t", num 1); ("position", VArr [num 0; num 1; num 0])] ])
      as [_ [H _]].
    apply H; [simpl; lia |].
    repeat constructor; do 4 eexists; repeat split; reflexivity.
  - destruct (X10_trajectory_samples
                [VObj [("t", num 0); ("position", VArr [num 1; num 0; num 0])]])
      as [H _].
    apply H. simpl. lia.
  - destruct (X10_trajectory_samples
                [ VObj [("t", num 0); ("position", VArr [num 1; num 0; num 0])];
                  VObj [("t", num 1); ("position_au", VArr [num 1; num 0; num 0])] ])
      as [_ [_ H]].
    apply (H [VObj [("t", num 0); ("position", VArr [num 1; num 0; num 0])]]
             [("t", num 1); ("position_au", VArr [num 1; num 0; num 0])] []).
    + reflexivity.
    + simpl. lia.
    + reflexivity.
Defined.

(** ** The planner: clicks outside the grid, and the selected transfer *)

(** X11: a click on a row index outside the c3 grid throws a TypeError,
    while a click on a cell that is null, undefined or beyond the end of its
    row in one of the three grids is a hole: the selection stays as it was
    and the selection callback is not invoked. *)
Theorem X11_clicks_off_the_grid (sel : option (nat * nat)) (dds ads : list value)
  (c3 dv tof : list (list value)) (i j : nat) :
  ((List.length c3 <= i)%nat ->
   handleCellClick sel (grid_of dds ads c3 dv tof) i j = Throw TypeError)
  /\ ((i < List.length c3)%nat -> (i < List.length dv)%nat ->
      (i < List.length tof)%nat ->
      (loose_eq_null (entry c3 i j) = true
       \/ loose_eq_null (entry dv i j) = true
       \/ loose_eq_null (entry tof i j) = true
       \/ (List.length (nth i c3 []) <= j)%nat) ->
      handleCellClick sel (grid_of dds ads c3 dv tof) i j = Ok (mkClick sel None)).
Proof.
  split.
  - intros Hi. unfold handleCellClick, cell, grid_of. simpl.
    rewrite (nth_overflow (map VArr c3) VUndefined)
      by (rewrite length_map; exact Hi).
    reflexivity.
  - intros H1 H2 H3 Hh. apply null_cell_is_a_hole; try assumption.
    destruct Hh as [H | [H | [H | H]]]; rewrite ?H, ?orb_true_r; try reflexivity.
    unfold entry. rewrite (nth_overflow (nth i c3 []) VUndefined H). reflexivity.
Qed.

Lemma X11_clicks_off_the_grid_witness :
  handleCellClick (Some (0%nat, 1%nat)) grid_nan 3 0 = Throw TypeError
  /\ handleCellClick (Some (0%nat, 1%nat)) grid_nan 0 7
     = Ok (mkClick (Some (0%nat, 1%nat)) None).
Proof.
  destruct (X11_clicks_off_the_grid (Some (0%nat, 1%nat))
              [VStr "2026-04-01T00:00:00"]
              [VStr "2026-10-01T00:00:00"; VStr "2026-11-01T00:00:00"]
              [[VNum NaN; num 12]] [[num 6; num 5]] [[num 183; num 214]] 3 0)
    as [Hrow _].
  destruct (X11_clicks_off_the_grid (Some (0%nat, 1%nat))
              [VStr "2026-04-01T00:00:00"]
              [VStr "2026-10-01T00:00:00"; VStr "2026-11-01T00:00:00"]
              [[VNum NaN; num 12]] [[num 6; num 5]] [[num 183; num 214]] 0 7)
    as [_ Hcol].
  split.
  - apply Hrow. simpl. lia.
  - apply Hcol; simpl; lia.
Defined.

Lemma lookup_absent (k : string) (fields : list (string * value)) :
  ~ In k (map fst fields) -> lookup k fields = None.
Proof.
  induction fields as [| [k0 v0] rest IH]; simpl; intros H; [reflexivity |].
  destruct (String.eqb k k0) eqn:E.
  - apply String.eqb_eq in E. subst. exfalso. apply H. left. reflexivity.
  - apply IH. intros Hin. apply H. right. exact Hin.
Qed.

Lemma lookup_overlay (k : string) (fields acc : list (string * value)) :
  NoDup (map fst fields) ->
  lookup k (fold_left (fun a kv => obj_set (fst kv) (snd kv) a) fields acc)
  = match lookup k fields with
    | Some v => Some v
    | None => lookup k acc
    end.
Proof.
  revert acc. induction fields as [| [k0 v0] rest IH]; simpl; intros acc Hnd;
    [reflexivity |].
  inversion Hnd as [| ? ? Hnotin Hrest]; subst.
  rewrite (IH _ Hrest). rewrite lookup_obj_set.
  destruct (String.eqb k k0) eqn:E.
  - apply String.eqb_eq in E. subst k0.
    rewrite (lookup_absent k rest Hnotin). reflexivity.
  - reflexivity.
Qed.

(** X12: the transfer kept after calculateTransfer is the server's answer
    overlaid with the clicked point: its departure_date, arrival_date, c3,
    delta_v and time_of_flight are the point's, whatever the server
    answered, and every other field is the server's. *)
Theorem X12_selected_transfer_overlay (p : Planner) (answer : list (string * value))
  (depDate arrDate c3 dv tof : value) :
  NoDup (map fst answer) ->
  let point := VObj [ ("departure_date", depDate); ("arrival_date", arrDate);
                      ("c3", c3); ("delta_v", dv); ("time_of_flight", tof) ] in
  let t := selectedTransfer (calculateTransfer_done p (VObj answer) point) in
  get t "departure_date" = Ok depDate /\ get t "arrival_date" = Ok arrDate
  /\ get t "c3" = Ok c3 /\ get t "delta_v" = Ok dv /\ get t "time_of_flight" = Ok tof
  /\ (forall k,
         ~ In k ["departure_date"; "arrival_date"; "c3"; "delta_v"; "time_of_flight"] ->
         get t k = Ok (field k answer)).
Proof.
  intros Hnd point t.
  destruct (selected_transfer_keeps_point p (VObj answer) depDate arrDate c3 dv tof)
    as [H1 [H2 [H3 [H4 H5]]]].
  repeat (split; [assumption |]).
  intros k Hk. subst t point. simpl. unfold spread2, get, field. simpl.
  repeat rewrite lookup_obj_set.
  assert (N : forall s, In s ["departure_date"; "arrival_date"; "c3"; "delta_v";
                              "time_of_flight"] -> String.eqb k s = false).
  { intros s Hs. apply String.eqb_neq. intros ->. exact (Hk Hs). }
  rewrite !N by (simpl; tauto).
  rewrite (lookup_overlay k answer [] Hnd). simpl.
  destruct (lookup k answer); reflexivity.
Qed.

Lemma X12_selected_transfer_overlay_witness :
  get (selectedTransfer
         (calculateTransfer_done planner_cleared
            (VObj [("c3", num 99); ("trajectory", VArr [])])
            (VObj [ ("departure_date", VStr "2026-04-01T00:00:00");
                    ("arrival_date", VStr "2026-11-01T00:00:00");
                    ("c3", num 12); ("delta_v", num 5); ("time_of_flight", num 214) ])))
      "c3" = Ok (num 12)
  /\ get (selectedTransfer
            (calculateTransfer_done planner_cleared
               (VObj [("c3", num 99); ("trajectory", VArr [])])
               (VObj [ ("departure_date", VStr "2026-04-01T00:00:00");
                       ("arrival_date", VStr "2026-11-01T00:00:00");
                       ("c3", num 12); ("delta_v", num 5); ("time_of_flight", num 214) ])))
         "trajectory" = Ok (VArr []).
Proof.
  destruct (X12_selected_transfer_overlay planner_cleared
              [("c3", num 99); ("trajectory", VArr [])]
              (VStr "2026-04-01T00:00:00") (VStr "2026-11-01T00:00:00")
              (num 12) (num 5) (num 214)) as [_ [_ [H3 [_ [_ Hk]]]]].
  - repeat constructor; simpl; intuition discriminate.
  - split; [exact H3 |]. apply Hk. simpl. intuition discriminate.
Defined.

(** ** The extremes of the porkchop plot *)

Import Arith PorkchopPlot.

Lemma Math_min_finite (l : list number) :
  l <> [] -> (forall n, In n l -> exists q, n = Fin q) ->
  exists m, Math_min l = Fin m /\ In (Fin m) l
            /\ forall q, In (Fin q) l -> (m <= q)%Q.
Proof.
  induction l as [| x rest IH]; intros Hne Hfin; [contradiction |].
  destruct (Hfin x (or_introl eq_refl)) as [q0 ->].
  destruct rest as [| y rest'].
  - exists q0. simpl. repeat split; auto.
    intros q [E | []]. injection E as <-. apply Qle_refl.
  - destruct IH as [m [Em [Im Hm]]]; [discriminate | intros n Hn; apply Hfin; right; exact Hn |].
    change (Math_min (Fin q0 :: y :: rest'))
      with (match Math_min (y :: rest') with
            | NaN => NaN
            | b => if num_le (Fin q0) b then Fin q0 else b
            end).
    rewrite Em. simpl num_le. cbv iota.
    destruct (Qle_bool q0 m) eqn:E.
    + apply Qle_bool_iff in E. exists q0. repeat split; [left; reflexivity |].
      intros q [Hq | Hq].
      * injection Hq as <-. apply Qle_refl.
      * apply Qle_trans with m; [exact E | exact (Hm q Hq)].
    + assert (L : (m <= q0)%Q).
      { apply Qlt_le_weak, Qnot_le_lt. intros C. apply Qle_bool_iff in C. congruence. }
      exists m. repeat split; [right; exact Im |].
      intros q [Hq | Hq].
      * injection Hq as <-. exact L.
      * exact (Hm q Hq).
Qed.

Lemma Math_max_finite (l : list number) :
  l <> [] -> (forall n, In n l -> exists q, n = Fin q) ->
  exists m, Math_max l = Fin m /\ In (Fin m) l
            /\ forall q, In (Fin q) l -> (q <= m)%Q.
Proof.
  induction l as [| x rest IH]; intros Hne Hfin; [contradiction |].
  destruct (Hfin x (or_introl eq_refl)) as [q0 ->].
  destruct rest as [| y rest'].
  - exists q0. simpl. repeat split; auto.
    intros q [E | []]. injection E as <-. apply Qle_refl.
  - destruct IH as [m [Em [Im Hm]]]; [discriminate | intros n Hn; apply Hfin; right; exact Hn |].
    change (Math_max (Fin q0 :: y :: rest'))
      with (match Math_max (y :: rest') with
            | NaN => NaN
            | b => if num_le (Fin q0) b then b else Fin q0
            end).
    rewrite Em. simpl num_le. cbv iota.
    destruct (Qle_bool q0 m) eqn:E.
    + apply Qle_bool_iff in E. exists m. repeat split; [right; exact Im |].
      intros q [Hq | Hq].
      * injection Hq as <-. exact E.
      * exact (Hm q Hq).
    + assert (L : (m <= q0)%Q).
      { apply Qlt_le_weak, Qnot_le_lt. intros C. apply Qle_bool_iff in C. congruence. }
      exists q0. repeat split; [left; reflexivity |].
      intros q [Hq | Hq].
      * injection Hq as <-. apply Qle_refl.
      * apply Qle_trans with m; [exact (Hm q Hq) | exact L].
Qed.

Lemma flatC3_member (c3 : list (list c3cell)) (n : number) :
  In n (flatC3 c3) <-> exists row, In row c3 /\ In (Some n) row /\ n <> NaN.
Proof.
  unfold flatC3. rewrite in_flat_map. split.
  - intros [row [Hr Hn]]. apply in_flat_map in Hn. destruct Hn as [cell [Hc Hn]].
    exists row. destruct cell as [[| | | q] |]; simpl in Hn;
      try contradiction; destruct Hn as [<- | []]; repeat split; auto; discriminate.
  - intros [row [Hr [Hc Hn]]]. exists row. split; [exact Hr |].
    apply in_flat_map. exists (Some n). split; [exact Hc |].
    destruct n; simpl; auto; contradiction.
Qed.

(** X14: in a plot whose cells are finite numbers or null and that has a
    valid cell, the component's minC3 and maxC3 are energies of valid cells
    of the grid and bracket every valid cell; in a plot without any valid
    cell they are 0 and 100. *)
Theorem X14_plot_extremes (c3 : list (list c3cell)) :
  (forall r cell, In r c3 -> In cell r -> cell = None \/ exists q, cell = Some (Fin q)) ->
  (forall row v,
      In row c3 -> In (Some (Fin v)) row ->
      exists lo hi,
        minC3 c3 = Fin lo /\ maxC3 c3 = Fin hi /\ (lo <= v)%Q /\ (v <= hi)%Q
        /\ (exists r1, In r1 c3 /\ In (Some (Fin lo)) r1)
        /\ (exists r2, In r2 c3 /\ In (Some (Fin hi)) r2))
  /\ ((forall r cell, In r c3 -> In cell r -> cell = None) ->
      minC3 c3 = Fin 0 /\ maxC3 c3 = Fin 100).
Proof.
  intros Hgrid. split.
  - intros row v Hrow Hcell.
    assert (Hin : In (Fin v) (flatC3 c3)).
    { apply flatC3_member. exists row. repeat split; auto. discriminate. }
    assert (Hfin : forall n, In n (flatC3 c3) -> exists q, n = Fin q).
    { intros n Hn. apply flatC3_member in Hn. destruct Hn as [r [Hr [Hc _]]].
      destruct (Hgrid r (Some n) Hr Hc) as [E | [q E]]; [discriminate |].
      injection E as ->. exists q. reflexivity. }
    assert (Hne : flatC3 c3 <> []) by (intros E; rewrite E in Hin; contradiction).
    destruct (Math_min_finite _ Hne Hfin) as [lo [Elo [Ilo Hlo]]].
    destruct (Math_max_finite _ Hne Hfin) as [hi [Ehi [Ihi Hhi]]].
    exists lo, hi.
    split; [unfold minC3; destruct (flatC3 c3); [contradiction | exact Elo] |].
    split; [unfold maxC3; destruct (flatC3 c3); [contradiction | exact Ehi] |].
    split; [exact (Hlo v Hin) | split; [exact (Hhi v Hin) | split]].
    + apply flatC3_member in Ilo. destruct Ilo as [r1 [Hr1 [Hc1 _]]]. eauto.
    + apply flatC3_member in Ihi. destruct Ihi as [r2 [Hr2 [Hc2 _]]]. eauto.
  - intros Hnone.
    assert (E : flatC3 c3 = []).
    { destruct (flatC3 c3) as [| n rest] eqn:F; [reflexivity |].
      assert (Hn : In n (flatC3 c3)) by (rewrite F; left; reflexivity).
      apply flatC3_member in Hn. destruct Hn as [r [Hr [Hc _]]].
      discriminate (Hnone r (Some n) Hr Hc). }
    unfold minC3, maxC3. rewrite E. split; reflexivity.
Qed.

Lemma X14_plot_extremes_witness :
  exists lo hi,
    minC3 [[Some (Fin 12); None]; [Some (Fin 7)]] = Fin lo
    /\ maxC3 [[Some (Fin 12); None]; [Some (Fin 7)]] = Fin hi
    /\ (lo <= 12)%Q /\ (12 <= hi)%Q.
Proof.
  assert (Hgrid : forall r cell,
             In r [[Some (Fin 12); None]; [Some (Fin 7)]] -> In cell r ->
             cell = None \/ exists q, cell = Some (Fin q)).
  { intros r cell [<- | [<- | []]] Hc; simpl in Hc;
      intuition (subst; eauto). }
  destruct (X14_plot_extremes [[Some (Fin 12); None]; [Some (Fin 7)]] Hgrid) as [H _].
  destruct (H [Some (Fin 12); None] 12%Q) as [lo [hi [H1 [H2 [H3 [H4 _]]]]]].
  - left. reflexivity.
  - left. reflexivity.
  - exists lo, hi. repeat split; assumption.
Defined.

(** X15: a response whose c3 grid is the empty array passes the plot's
    guard (an array is truthy) and the render then throws a TypeError on
    [data.c3[0].length]; a null response or one without c3 renders
    nothing. *)
Theorem X15_empty_grid_breaks_the_plot (fields : list (string * value)) :
  (lookup "c3" fields = Some (VArr []) ->
   rendered (VObj fields) = Ok true /\ columns (VObj fields) = Throw TypeError)
  /\ (lookup "c3" fields = None -> rendered (VObj fields) = Ok false)
  /\ rendered VNull = Ok false.
Proof.
  split; [| split; [| reflexivity]].
  - intros H. unfold rendered, columns, get. rewrite H. split; reflexivity.
  - intros H. unfold rendered, get. rewrite H. reflexivity.
Qed.

Lemma X15_empty_grid_breaks_the_plot_witness :
  rendered (VObj [("departure_dates", VArr []); ("c3", VArr [])]) = Ok true
  /\ columns (VObj [("departure_dates", VArr []); ("c3", VArr [])]) = Throw TypeError.
Proof.
  destruct (X15_empty_grid_breaks_the_plot [("departure_dates", VArr []); ("c3", VArr [])])
    as [H _].
  apply H. reflexivity.
Defined.

(** ** Calendar dates *)

Lemma civil_from_days_range (z : Z) :
  -719528 <= z < 2932897 ->
  exists y m d,
    civil_from_days z = (y, m, d)
    /\ 0 <= y <= 9999 /\ 1 <= m <= 12 /\ 1 <= d <= 31.
Proof.
  intros H. unfold civil_from_days. cbv zeta.
  set (z' := z + 719468).
  set (era := z' / 146097).
  set (doe := z' - era * 146097).
  set (yoe := (doe - doe / 1460 + doe / 36524 - doe / 146096) / 365).
  set (doy := doe - (365 * yoe + yoe / 4 - yoe / 100)).
  set (mp := (5 * doy + 2) / 153).
  set (d := doy - (153 * mp + 2) / 5 + 1).
  assert (B : -1 <= era <= 24 /\ 0 <= doe < 146097
              /\ (era = 24 -> doe < 146037) /\ (era = -1 -> 146037 <= doe)).
  { subst era doe z'. Z.div_mod_to_equations. lia. }
  assert (C : 0 <= yoe <= 399 /\ 0 <= doy <= 365 /\ 0 <= mp <= 11 /\ 1 <= d <= 31
              /\ (doe < 146037 -> yoe < 399 \/ mp < 10)
              /\ (146037 <= doe -> yoe = 399 /\ 10 <= mp)).
  { destruct B as [_ [Hd _]]. clearbody doe. subst d mp doy yoe.
    Z.div_mod_to_equations. lia. }
  destruct B as [He [Hd [H24 Hm1]]]. destruct C as [Hy [Hdoy [Hmp [Hday [Hlt Hge]]]]].
  destruct (mp <? 10) eqn:E1.
  - apply Z.ltb_lt in E1.
    assert (E2 : (mp + 3 <=? 2) = false) by (apply Z.leb_gt; lia).
    rewrite E2. exists (yoe + era * 400), (mp + 3), d. repeat split; try lia.
  - apply Z.ltb_ge in E1.
    assert (E2 : (mp - 9 <=? 2) = true) by (apply Z.leb_le; lia).
    rewrite E2. exists (yoe + era * 400 + 1), (mp - 9), d. repeat split; try lia.
Qed.

Lemma digit_cases (z : Z) :
  exists k, (k < 10)%nat /\ digit z = ascii_of_nat (48 + k).
Proof.
  exists (Z.to_nat (z mod 10)). split; [| reflexivity].
  pose proof (Z.mod_pos_bound z 10 ltac:(lia)). lia.
Qed.

Lemma is_digit_digit (z : Z) : is_digit (digit z) = true.
Proof.
  destruct (digit_cases z) as [k [Hk ->]].
  do 10 (destruct k as [| k]; [reflexivity |]). lia.
Qed.

Lemma digit_not_T (z : Z) : Ascii.eqb (digit z) "T" = false.
Proof.
  destruct (digit_cases z) as [k [Hk ->]].
  do 10 (destruct k as [| k]; [reflexivity |]). lia.
Qed.

Lemma two_digits_of (lo hi n : Z) :
  0 <= lo -> lo <= n <= hi -> hi <= 99 ->
  Contract.two_digits lo hi (String (digit (n / 10)) (String (digit n) "")) = true.
Proof.
  intros Hlo Hn Hhi. unfold Contract.two_digits.
  rewrite !is_digit_digit. cbn [andb].
  assert (D : forall z, Z.of_nat (nat_of_ascii (digit z) - 48) = z mod 10).
  { intros z. unfold digit.
    pose proof (Z.mod_pos_bound z 10 ltac:(lia)) as B.
    rewrite nat_ascii_embedding by lia. lia. }
  rewrite !D.
  assert (E : (n / 10) mod 10 * 10 + n mod 10 = n)
    by (Z.div_mod_to_equations; lia).
  rewrite E. apply andb_true_iff. split; apply Z.leb_le; lia.
Qed.

(** The ISO text of an instant within the years 0000..9999. *)
Lemma toISOString_in_range (t : Z) :
  -62167219200000 <= t < 253402300800000 ->
  exists y m d,
    civil_from_days (Day t) = (y, m, d)
    /\ 0 <= y <= 9999 /\ 1 <= m <= 12 /\ 1 <= d <= 31
    /\ toISOString (Some t)
       = Ok (pad 4 y ++ "-" ++ pad 2 m ++ "-" ++ pad 2 d ++ "T"
             ++ pad 2 (HourFromTime t) ++ ":" ++ pad 2 (MinFromTime t) ++ ":"
             ++ pad 2 (SecFromTime t) ++ "." ++ pad 3 (msFromTime t) ++ "Z").
Proof.
  intros H.
  assert (Hz : -719528 <= Day t < 2932897)
    by (unfold Day, msPerDay; Z.div_mod_to_equations; lia).
  destruct (civil_from_days_range (Day t) Hz) as [y [m [d [E [Hy [Hm Hd]]]]]].
  exists y, m, d. repeat split; try lia; try assumption.
  unfold toISOString. rewrite E.
  assert (Y : (0 <=? y) && (y <=? 9999) = true)
    by (apply andb_true_iff; split; apply Z.leb_le; lia).
  rewrite Y. reflexivity.
Qed.

Lemma is_date_of (y m d : Z) :
  1 <= m <= 12 -> 1 <= d <= 31 ->
  Contract.is_date (pad 4 y ++ "-" ++ pad 2 m ++ "-" ++ pad 2 d) = true.
Proof.
  intros Hm Hd. unfold Contract.is_date.
  cbn [pad append substring String.length Nat.eqb Nat.sub Contract.all_digits].
  rewrite !is_digit_digit.
  rewrite (two_digits_of 1 12 m) by lia.
  rewrite (two_digits_of 1 31 d) by lia.
  reflexivity.
Qed.

Lemma date_part_in_range (t : Z) :
  -62167219200000 <= t < 253402300800000 ->
  exists y m d,
    civil_from_days (Day t) = (y, m, d)
    /\ date_part t = Ok (pad 4 y ++ "-" ++ pad 2 m ++ "-" ++ pad 2 d)
    /\ Contract.is_date (pad 4 y ++ "-" ++ pad 2 m ++ "-" ++ pad 2 d) = true.
Proof.
  intros H.
  destruct (toISOString_in_range t H) as [y [m [d [E [Hy [Hm [Hd S]]]]]]].
  exists y, m, d. split; [exact E | split; [| apply is_date_of; assumption]].
  unfold date_part, TimeClip.
  assert (C : (Z.abs t <=? 8640000000000000) = true) by (apply Z.leb_le; lia).
  rewrite C, S. cbn [bind pad append before_first].
  rewrite !digit_not_T. reflexivity.
Qed.

(** X16: for every current time from year 0000 on whose date two years
    ahead still lies before year 10000, the effect that sets the default
    dates succeeds, leaves the two bodies as they were, and fills the four
    date inputs with calendar dates YYYY-MM-DD; the porkchop request built
    from these defaults therefore carries four ISO-8601 date-times. *)
Theorem X16_default_dates_are_dates (p : Planner) (today : Z) :
  -62167219200000 <= today ->
  today + 730 * 24 * 60 * 60 * 1000 < 253402300800000 ->
  exists p',
    set_default_dates p today = Ok p'
    /\ departure p' = departure p /\ arrival p' = arrival p
    /\ Contract.is_date (departureStart p') = true
    /\ Contract.is_date (departureEnd p') = true
    /\ Contract.is_date (arrivalStart p') = true
    /\ Contract.is_date (arrivalEnd p') = true
    /\ Contract.is_iso8601_datetime (departureStart p' ++ "T00:00:00") = true
    /\ Contract.is_iso8601_datetime (departureEnd p' ++ "T00:00:00") = true
    /\ Contract.is_iso8601_datetime (arrivalStart p' ++ "T00:00:00") = true
    /\ Contract.is_iso8601_datetime (arrivalEnd p' ++ "T00:00:00") = true.
Proof.
  intros Hlo Hhi.
  destruct (date_part_in_range today) as [y0 [m0 [d0 [_ [E0 D0]]]]]; [lia |].
  destruct (date_part_in_range (today + 180 * 24 * 60 * 60 * 1000))
    as [y1 [m1 [d1 [_ [E1 D1]]]]]; [lia |].
  destruct (date_part_in_range (today + 365 * 24 * 60 * 60 * 1000))
    as [y2 [m2 [d2 [_ [E2 D2]]]]]; [lia |].
  destruct (date_part_in_range (today + 730 * 24 * 60 * 60 * 1000))
    as [y3 [m3 [d3 [_ [E3 D3]]]]]; [lia |].
  unfold set_default_dates. rewrite E0, E1, E2, E3. cbn [bind].
  eexists. split; [reflexivity |].
  cbn [departure arrival departureStart departureEnd arrivalStart arrivalEnd].
  repeat split; try assumption; apply date_then_midnight; assumption.
Qed.

Lemma X16_default_dates_are_dates_witness :
  exists p',
    set_default_dates TrajectoryPlanner.initial 1793664000000 = Ok p'
    /\ Contract.is_date (departureStart p') = true
    /\ Contract.is_iso8601_datetime (arrivalEnd p' ++ "T00:00:00") = true.
Proof.
  destruct (X16_default_dates_are_dates TrajectoryPlanner.initial 1793664000000)
    as [p' [E [_ [_ [H1 [_ [_ [_ [_ [_ [_ H2]]]]]]]]]]]; try lia.
  exists p'. repeat split; assumption.
Defined.

(** ** The simulation-time display *)

Lemma display_in_range (t : Z) :
  -62167219200000 <= t < 253402300800000 ->
  exists date,
    date_part t = Ok date
    /\ ControlPanel.display_of_instant (Some t)
       = Ok (date ++ " " ++ pad 2 (HourFromTime t) ++ ":" ++ pad 2 (MinFromTime t)
             ++ ":" ++ pad 2 (SecFromTime t))
    /\ String.length (date ++ " " ++ pad 2 (HourFromTime t) ++ ":"
                      ++ pad 2 (MinFromTime t) ++ ":" ++ pad 2 (SecFromTime t))
       = 19%nat.
Proof.
  intros H.
  destruct (date_part_in_range t H) as [y [m [d [E [Dp _]]]]].
  destruct (toISOString_in_range t H) as [y' [m' [d' [E' [_ [_ [_ S]]]]]]].
  rewrite E in E'. injection E' as <- <- <-.
  eexists. split; [exact Dp |].
  unfold ControlPanel.display_of_instant. rewrite S.
  cbn [bind pad append replace_first].
  rewrite !digit_not_T.
  cbn [Ascii.eqb Bool.eqb replace_first].
  split; reflexivity.
Qed.

(** X17: for every instant of the years 0000..9999 the text shown for the
    simulation time is the calendar date (as [toISOString] gives it, the
    same text the planner uses for its dates), one space, and the UTC clock
    time HH:mm:ss: exactly 19 characters, the milliseconds and the zone
    letter cut off and nothing else. *)
Theorem X17_display_is_date_space_clock (t : Z) :
  -62167219200000 <= t < 253402300800000 ->
  exists date,
    date_part t = Ok date
    /\ Contract.is_date date = true
    /\ ControlPanel.display_of_instant (Some t)
       = Ok (date ++ " " ++ pad 2 (HourFromTime t) ++ ":" ++ pad 2 (MinFromTime t)
             ++ ":" ++ pad 2 (SecFromTime t))
    /\ String.length (date ++ " " ++ pad 2 (HourFromTime t) ++ ":"
                      ++ pad 2 (MinFromTime t) ++ ":" ++ pad 2 (SecFromTime t))
       = 19%nat.
Proof.
  intros H.
  destruct (display_in_range t H) as [date [Dp [Ds Dl]]].
  destruct (date_part_in_range t H) as [y [m [d [_ [Dp' Dd]]]]].
  rewrite Dp in Dp'. injection Dp' as ->.
  eexists. split; [exact Dp | split; [exact Dd | split; [exact Ds | exact Dl]]].
Qed.

Lemma X17_display_is_date_space_clock_witness :
  exists date,
    date_part 1719615723456 = Ok date
    /\ Contract.is_date date = true
    /\ ControlPanel.display_of_instant (Some 1719615723456)
       = Ok (date ++ " " ++ pad 2 (HourFromTime 1719615723456) ++ ":"
             ++ pad 2 (MinFromTime 1719615723456)
             ++ ":" ++ pad 2 (SecFromTime 1719615723456))
    /\ String.length (date ++ " " ++ pad 2 (HourFromTime 1719615723456) ++ ":"
                      ++ pad 2 (MinFromTime 1719615723456) ++ ":"
                      ++ pad 2 (SecFromTime 1719615723456))
       = 19%nat.
Proof.
  apply (X17_display_is_date_space_clock 1719615723456). lia.
Defined.

Lemma displayed_instant_clipped (tz : Z -> bool -> Z) (k : Z) (q : Q) :
  (forall t b, tz t b = k * msPerMinute) ->
  ControlPanel.displayed_instant tz (Fin q) = TimeClip (Some (EPOCH_MS + 1000 * trunc q)).
Proof.
  intros Htz. unfold ControlPanel.displayed_instant.
  change (Date_UTC 2024 0 1) with (Some EPOCH_MS).
  unfold setSeconds, getSeconds, LocalTime, UTC. rewrite !Htz.
  replace (EPOCH_MS + k * msPerMinute) with ((28401120 + k) * msPerMinute)
    by (unfold EPOCH_MS, msPerMinute; lia).
  destruct (whole_minute_fields (28401120 + k)) as [Hd [Hs Hm]].
  cbv zeta in Hd, Hs, Hm. rewrite Hs, Hm.
  unfold num_add, MakeTime, MakeDate.
  rewrite (trunc_comp (inject_Z 0 + q) q) by apply Qplus_0_l.
  rewrite !Htz.
  replace (Day ((28401120 + k) * msPerMinute) * msPerDay +
           (HourFromTime ((28401120 + k) * msPerMinute) * msPerHour +
            MinFromTime ((28401120 + k) * msPerMinute) * msPerMinute +
            trunc q * msPerSecond + 0) - k * msPerMinute)
    with (EPOCH_MS + 1000 * trunc q)
    by (unfold EPOCH_MS, msPerMinute, msPerSecond in *; lia).
  reflexivity.
Qed.

(** X18: formatSimTime throws a RangeError on a NaN or infinite timestamp,
    on any host, and (on a host with a constant whole-minute offset) on
    every timestamp that leads beyond the Date range of 8.64e15 ms; it never
    returns a text for them.  SimulationInfo replaces every falsy timestamp
    (undefined, null, NaN, 0) by 0 before formatting, so these show the
    epoch. *)
Theorem X18_display_range_errors (tz : Z -> bool -> Z) (k : Z) :
  (forall t b, tz t b = k * msPerMinute) ->
  (forall host, ControlPanel.formatSimTime host NaN = Throw RangeError
                /\ ControlPanel.formatSimTime host PosInf = Throw RangeError
                /\ ControlPanel.formatSimTime host NegInf = Throw RangeError)
  /\ (forall q, 8640000000000000 < Z.abs (EPOCH_MS + 1000 * trunc q) ->
                ControlPanel.formatSimTime tz (Fin q) = Throw RangeError)
  /\ (forall v, truthy v = false ->
                ControlPanel.simTime_arg v = num 0
                /\ ControlPanel.formatSimTime tz (Fin (inject_Z 0))
                   = Ok "2024-01-01 00:00:00").
Proof.
  intros Htz. split; [| split].
  - intros host. repeat split; reflexivity.
  - intros q Hq.
    change (ControlPanel.formatSimTime tz (Fin q))
      with (ControlPanel.display_of_instant (ControlPanel.displayed_instant tz (Fin q))).
    rewrite (displayed_instant_clipped tz k q Htz). unfold TimeClip.
    assert (E : (Z.abs (EPOCH_MS + 1000 * trunc q) <=? 8640000000000000) = false)
      by (apply Z.leb_gt; exact Hq).
    rewrite E. reflexivity.
  - intros v Hv. split.
    + unfold ControlPanel.simTime_arg, js_or. rewrite Hv. reflexivity.
    + change (ControlPanel.formatSimTime tz (Fin (inject_Z 0)))
        with (ControlPanel.display_of_instant
                (ControlPanel.displayed_instant tz (Fin (inject_Z 0)))).
      rewrite (displayed_instant_clipped tz k _ Htz). reflexivity.
Qed.

Lemma X18_display_range_errors_witness :
  ControlPanel.formatSimTime utc_host (Fin (inject_Z 8640000000000)) = Throw RangeError
  /\ ControlPanel.simTime_arg VUndefined = num 0.
Proof.
  destruct (X18_display_range_errors utc_host 0) as [_ [Hr Hf]].
  - intros t b. reflexivity.
  - split.
    + apply Hr. vm_compute. reflexivity.
    + apply (Hf VUndefined). reflexivity.
Defined.

(** ** From a click to the requests *)

(** X19: clicking a cell whose three entries are non-null, with both dates
    on the axes, leads to a single-transfer request for exactly that cell:
    the planner's two bodies, departure_dates[i] and arrival_dates[j]; the
    cell's c3, delta_v and time_of_flight are not part of the request. *)
Theorem X19_click_to_transfer_request (p : Planner) (sel : option (nat * nat))
  (dds ads : list string) (c3 dv tof : list (list value)) (i j : nat) :
  loose_eq_null (entry c3 i j) = false ->
  loose_eq_null (entry dv i j) = false ->
  loose_eq_null (entry tof i j) = false ->
  (i < List.length dds)%nat -> (j < List.length ads)%nat ->
  exists point,
    handleCellClick sel (grid_of (map VStr dds) (map VStr ads) c3 dv tof) i j
    = Ok (mkClick (Some (i, j)) (Some point))
    /\ calculateTransfer_body p point
       = Ok (Some (JObj [ ("departure", JStr (departure p));
                          ("arrival", JStr (arrival p));
                          ("departure_date", JStr (nth i dds ""));
                          ("arrival_date", JStr (nth j ads "")) ])).
Proof.
  intros H1 H2 H3 Hi Hj. unfold handleCellClick.
  rewrite (cell_entry _ _ c3 dv tof "c3" c3 i j eq_refl H1).
  rewrite (cell_entry _ _ c3 dv tof "delta_v" dv i j eq_refl H2).
  rewrite (cell_entry _ _ c3 dv tof "time_of_flight" tof i j eq_refl H3).
  simpl. rewrite H1, H2, H3. simpl. eexists. split; [reflexivity |].
  assert (N : forall (l : list string) n, (n < List.length l)%nat ->
                nth n (map VStr l) VUndefined = VStr (nth n l "")).
  { intros l. induction l as [| s rest IH]; intros [| n] Hn; simpl in *;
      try lia; auto. apply IH. lia. }
  unfold calculateTransfer_body. simpl. rewrite (N dds i Hi), (N ads j Hj).
  reflexivity.
Qed.

Lemma X19_click_to_transfer_request_witness :
  exists point,
    handleCellClick None
      (grid_of (map VStr ["2026-04-01T00:00:00"])
         (map VStr ["2026-10-01T00:00:00"; "2026-11-01T00:00:00"])
         [[VNum NaN; num 12]] [[num 6; num 5]] [[num 183; num 214]]) 0 1
    = Ok (mkClick (Some (0%nat, 1%nat)) (Some point))
    /\ calculateTransfer_body planner_cleared point
       = Ok (Some (JObj [ ("departure", JStr "earth");
                          ("arrival", JStr "mars");
                          ("departure_date", JStr "2026-04-01T00:00:00");
                          ("arrival_date", JStr "2026-11-01T00:00:00") ])).
Proof.
  apply (X19_click_to_transfer_request planner_cleared None
           ["2026-04-01T00:00:00"] ["2026-10-01T00:00:00"; "2026-11-01T00:00:00"]
           [[VNum NaN; num 12]] [[num 6; num 5]] [[num 183; num 214]] 0 1);
    try reflexivity; simpl; lia.
Defined.

(** ** The speed select: from the option's value to the handler's argument *)

Lemma digit_value (z : Z) : Z.of_nat (nat_of_ascii (digit z) - 48) = z mod 10.
Proof.
  unfold digit. pose proof (Z.mod_pos_bound z 10 ltac:(lia)) as B.
  rewrite nat_ascii_embedding by lia. lia.
Qed.

Lemma digit_head (c : ascii) (r : string) :
  is_digit c = true ->
  skip_ws (String c r) = String c r
  /\ read_sign (String c r) = (false, String c r)
  /\ prefix "Infinity" (String c r) = false.
Proof.
  destruct c as [[] [] [] [] [] [] [] []]; intros H; try discriminate H;
    repeat split; reflexivity.
Qed.

Lemma digits_of_read (fuel : nat) :
  forall z acc,
    (0 < fuel)%nat -> 0 <= z < 10 ^ Z.of_nat fuel ->
    exists c rest len,
      digits_of fuel z acc = String c rest /\ is_digit c = true /\ (0 < len)%nat
      /\ forall a n,
           read_digits (digits_of fuel z acc) a n
           = read_digits acc (a * 10 ^ Z.of_nat len + z) (n + len).
Proof.
  induction fuel as [| f IH]; intros z acc Hf Hz; [lia |].
  cbn [digits_of]. cbv zeta.
  destruct (z <? 10) eqn:E.
  - apply Z.ltb_lt in E. exists (digit z), acc, 1%nat.
    repeat split; [apply is_digit_digit | lia |].
    intros a n. cbn [read_digits]. rewrite is_digit_digit, digit_value.
    rewrite Z.mod_small by lia. f_equal; lia.
  - apply Z.ltb_ge in E.
    assert (Hf' : (0 < f)%nat).
    { destruct f; [| lia]. simpl in Hz. lia. }
    assert (Hz' : 0 <= z / 10 < 10 ^ Z.of_nat f).
    { rewrite Nat2Z.inj_succ, Z.pow_succ_r in Hz by lia.
      Z.div_mod_to_equations. lia. }
    destruct (IH (z / 10) (String (digit z) acc) Hf' Hz')
      as [c [rest [len [Es [Hc [Hl Hr]]]]]].
    exists c, rest, (S len). repeat split; [exact Es | exact Hc | lia |].
    intros a n. rewrite Hr. cbn [read_digits]. rewrite is_digit_digit, digit_value.
    assert (V : (a * 10 ^ Z.of_nat len + z / 10) * 10 + z mod 10
                = a * 10 ^ Z.of_nat (S len) + z).
    { rewrite Nat2Z.inj_succ, Z.pow_succ_r by lia.
      pose proof (Z.div_mod z 10 ltac:(lia)) as D. nia. }
    rewrite V. f_equal. lia.
Qed.

Lemma parseFloat_digits (z : Z) (neg : bool) :
  0 <= z < 10 ^ 22 ->
  let s := digits_of 22 z "" in
  match read_digits s 0 0 with
  | (ip, ni, s1) => ip = z /\ (0 < ni)%nat /\ s1 = ""
  end
  /\ skip_ws s = s /\ read_sign s = (false, s) /\ prefix "Infinity" s = false.
Proof.
  intros Hz. cbv zeta.
  destruct (digits_of_read 22 z "" ltac:(lia) Hz) as [c [rest [len [Es [Hc [Hl Hr]]]]]].
  rewrite Hr. cbn [read_digits]. split; [repeat split; lia |].
  rewrite Es. apply digit_head, Hc.
Qed.

Lemma parseFloat_Number_toString (z : Z) :
  - 10 ^ 21 < z < 10 ^ 21 -> parseFloat (Number_toString z) = Fin (inject_Z z).
Proof.
  intros Hz. unfold Number_toString.
  destruct (z <? 0) eqn:E.
  - apply Z.ltb_lt in E.
    destruct (parseFloat_digits (- z) true ltac:(lia)) as [Hd [_ [_ Hp]]].
    cbv zeta in Hd, Hp. unfold parseFloat.
    change (skip_ws ("-" ++ digits_of 22 (- z) ""))
      with (String "-" (digits_of 22 (- z) "")).
    cbn [read_sign]. rewrite Hp.
    destruct (read_digits (digits_of 22 (- z) "") 0 0) as [[ip ni] s1].
    destruct Hd as [-> [Hn ->]].
    destruct ni as [| ni]; [lia |]. cbn [Nat.add].
    change (read_exponent "") with 0. change (0 <=? 0) with true. cbv iota.
    change (Z.of_nat 0) with 0. change (10 ^ 0) with 1.
    change (Z.to_pos 1) with 1%positive.
    unfold inject_Z. f_equal. f_equal. lia.
  - apply Z.ltb_ge in E.
    destruct (parseFloat_digits z false ltac:(lia)) as [Hd [Hw [Hs Hp]]].
    cbv zeta in Hd, Hw, Hs, Hp. unfold parseFloat.
    rewrite Hw, Hs, Hp.
    destruct (read_digits (digits_of 22 z "") 0 0) as [[ip ni] s1].
    destruct Hd as [-> [Hn ->]].
    destruct ni as [| ni]; [lia |]. cbn [Nat.add].
    change (read_exponent "") with 0. change (0 <=? 0) with true. cbv iota.
    change (Z.of_nat 0) with 0. change (10 ^ 0) with 1.
    change (Z.to_pos 1) with 1%positive.
    unfold inject_Z. f_equal. f_equal. lia.
Qed.

(** X21: whatever integer speed below 1e21 in magnitude an option of the
    speed select carries, the value handed to onSpeedChange after the trip
    through the DOM attribute and parseFloat is that same number: the
    select never alters, rounds or drops a speed. *)
Theorem X21_option_value_round_trip (o : ControlPanel.speedOption) :
  - 10 ^ 21 < ControlPanel.value o < 10 ^ 21 ->
  ControlPanel.select_onChange o = Fin (inject_Z (ControlPanel.value o))
  /\ JSON_stringify (speed_command (ControlPanel.select_onChange o))
     = Some (JObj [ ("type", JStr "control");
                    ("action", JStr "set_speed");
                    ("speed", JNum (inject_Z (ControlPanel.value o))) ]).
Proof.
  intros H. unfold ControlPanel.select_onChange, ControlPanel.option_attr.
  rewrite (parseFloat_Number_toString _ H). split; reflexivity.
Qed.

Lemma X21_option_value_round_trip_witness :
  ControlPanel.select_onChange (ControlPanel.mkOption 250 "250x") = Fin (inject_Z 250).
Proof.
  destruct (X21_option_value_round_trip (ControlPanel.mkOption 250 "250x")) as [H _].
  - split; vm_compute; reflexivity.
  - exact H.
Defined.

(** ** The body selects of the planner *)

Import PlannerForm.

(** X22: the arrival select never offers the departure body, and offers the
    seven other planets when the departure is a planet; but choosing a
    departure does not touch the arrival already chosen, so after picking as
    departure the body that is the current arrival, the porkchop request
    names the same body twice, a pair the arrival select does not offer. *)
Theorem X22_arrival_options (p : Planner) (d : string) :
  ~ In d (arrival_options d)
  /\ (forall a, In a (arrival_options d) <-> In a planets /\ a <> d)
  /\ (In d planets -> List.length (arrival_options d) = 7%nat)
  /\ arrival (setDeparture p d) = arrival p
  /\ (exists j,
         calculatePorkchop_body (setDeparture p (arrival p)) = Some j
         /\ json_get j "departure" = Some (JStr (arrival p))
         /\ json_get j "arrival" = Some (JStr (arrival p))).
Proof.
  assert (F : forall a, In a (arrival_options d) <-> In a planets /\ a <> d).
  { intros a. unfold arrival_options. rewrite filter_In. split.
    - intros [Hin Hne]. split; [exact Hin |].
      apply negb_true_iff, String.eqb_neq in Hne. exact Hne.
    - intros [Hin Hne]. split; [exact Hin |].
      apply negb_true_iff, String.eqb_neq. exact Hne. }
  split; [| split; [exact F | split; [| split; [reflexivity |]]]].
  - intros H. apply F in H. destruct H as [_ H]. apply H. reflexivity.
  - unfold planets. simpl.
    intros H. repeat (destruct H as [<- | H]; [reflexivity |]). contradiction.
  - eexists. split; [reflexivity |]. split; reflexivity.
Qed.

Lemma X22_arrival_options_witness :
  List.length (arrival_options "earth") = 7%nat.
Proof.
  destruct (X22_arrival_options TrajectoryPlanner.initial "earth") as [_ [_ [H _]]].
  apply H. unfold planets. simpl. tauto.
Defined.

(** ** Commands in sequence *)

Lemma store_same (id : nat) (ws : WebSocket) (heap : list WebSocket) :
  nth_error heap id = Some ws -> store id ws heap = heap.
Proof.
  revert id; induction heap as [| w rest IH]; intros [| id] H; simpl in *;
    try discriminate.
  - injection H as ->. reflexivity.
  - rewrite (IH id H). reflexivity.
Qed.

Lemma store_store (id : nat) (ws1 ws2 : WebSocket) (heap : list WebSocket) :
  store id ws2 (store id ws1 heap) = store id ws2 heap.
Proof.
  revert id; induction heap as [| w rest IH]; intros [| id]; simpl; try reflexivity.
  rewrite IH. reflexivity.
Qed.

(** X23: while the current socket is open, commands issued one after the
    other through sendCommand all reach the socket, once each and in the
    order issued, after the frames sent before; no other socket and no
    other part of the client changes. *)
Theorem X23_commands_keep_their_order (cmds : list value) :
  forall (c : Client) (id : nat) (ws : WebSocket),
    OrbitEngine.wsRef c = Some id -> nth_error (sockets c) id = Some ws ->
    readyState ws = OPEN ->
    sendAll c cmds
    = Ok (setSockets c (Some id)
            (store id (mkSocket OPEN (sent ws ++ map JSON_stringify cmds)) (sockets c))).
Proof.
  induction cmds as [| cmd rest IH]; intros c id ws Hr Hs Ho; cbn [sendAll map].
  - rewrite app_nil_r.
    assert (E : mkSocket OPEN (sent ws) = ws)
      by (destruct ws; simpl in Ho; subst; reflexivity).
    rewrite E, (store_same id ws _ Hs).
    destruct c; simpl in Hr; subst; reflexivity.
  - rewrite (sendCommand_open c cmd id ws Hr Hs Ho). cbn [bind].
    rewrite (IH _ id (mkSocket OPEN (sent ws ++ [JSON_stringify cmd])));
      [| reflexivity | apply nth_error_store with (ws := ws); exact Hs | reflexivity].
    unfold setSockets. cbn [sent sockets OrbitEngine.simulationState selectedBody
                              bodyInfo showPlanner OrbitEngine.isConnected timers fetches].
    rewrite store_store, <- app_assoc. reflexivity.
Qed.

Lemma X23_commands_keep_their_order_witness :
  sendAll client_open [speed_command (Fin 10); focus_command "Mars"]
  = Ok (setSockets client_open (Some 0%nat)
          [mkSocket OPEN [JSON_stringify (speed_command (Fin 10));
                          JSON_stringify (focus_command "Mars")]]).
Proof.
  apply (X23_commands_keep_their_order
           [speed_command (Fin 10); focus_command "Mars"]
           client_open 0 (mkSocket OPEN [])); reflexivity.
Defined.
